(** * d20-chat-webapp: connection registry and broadcast fanout

    A shallow embedding of [app.py]: the identity extraction shared by the
    [/ws] and [/api/send_message] handlers, the [active_connections]
    registry, [broadcast_message], [api_request] and the request handlers,
    followed by the properties of the specification that concern them.

    Conventions.
    - A Python [str] is a list of Unicode code points, so that [len] and
      [str.strip] count and test characters as Python does.
    - A Python object obtained from JSON is a [pyval].  JSON numbers with a
      fraction or an exponent (Python floats) are left out of the embedding.
    - Library calls whose code is not part of the repository ([parse_qs],
      [json.loads], [json.dumps], [int], the HTTP client and the websocket
      transport) are fields of an [env] record; every theorem holds for every
      [env].
    - The effects of a handler are recorded in a [world]: the registry, the
      log of [ws.send] attempts, of [ws.close] calls, of requests made to the
      message store, and the number of [json.dumps] calls. *)

From Stdlib Require Import String Ascii DecimalString.
From Stdlib Require Import List ZArith NArith Bool Lia.
Import ListNotations.
Local Open Scope Z_scope.
#[local] Set Warnings "-register-all".

(** ** Python strings *)

Definition char := N.
Definition pystr := list char.

(** A literal of the source, as code points. *)
Definition lit (s : string) : pystr :=
  map N_of_ascii (list_ascii_of_string s).

Fixpoint str_eqb (s t : pystr) : bool :=
  match s, t with
  | [], [] => true
  | a :: s', b :: t' => N.eqb a b && str_eqb s' t'
  | _, _ => false
  end.

(** [str.isspace] on one character, from CPython's [_PyUnicode_IsWhitespace]:
    the code points of bidirectional type WS, B or S, or of category Zs. *)
Definition isspace (c : char) : bool :=
  (((9 <=? c) && (c <=? 13)) || ((28 <=? c) && (c <=? 32))
   || (c =? 133) || (c =? 160) || (c =? 5760)
   || ((8192 <=? c) && (c <=? 8202))
   || (c =? 8232) || (c =? 8233) || (c =? 8239) || (c =? 8287)
   || (c =? 12288))%N.

Fixpoint lstrip (s : pystr) : pystr :=
  match s with
  | c :: s' => if isspace c then lstrip s' else s
  | [] => []
  end.

(** [str.strip()] with no argument. *)
Definition strip (s : pystr) : pystr :=
  rev (lstrip (rev (lstrip s))).

(** [len(s)] *)
Definition len (s : pystr) : Z := Z.of_nat (length s).

(** ** Python objects *)

Inductive pyval : Type :=
| PNone
| PBool (b : bool)
| PInt (z : Z)
| PStr (s : pystr)
| PList (l : list pyval)
| PDict (d : list (pystr * pyval)).

(** Truth value of an object, as [not x], [if x] and [x and y] test it. *)
Definition truthy (v : pyval) : bool :=
  match v with
  | PNone => false
  | PBool b => b
  | PInt z => negb (z =? 0)
  | PStr s => match s with [] => false | _ => true end
  | PList l => match l with [] => false | _ => true end
  | PDict d => match d with [] => false | _ => true end
  end.

(** Outcome of a Python expression that may raise. *)
Inductive pyresult (A : Type) : Type :=
| Ok (a : A)
| Raise.
Arguments Ok {A} a.
Arguments Raise {A}.

(** [d.get(k, default)] on a [dict] with [str] keys. *)
Fixpoint obj_get (d : list (pystr * pyval)) (k : pystr) (default : pyval)
  : pyval :=
  match d with
  | [] => default
  | (k', v) :: d' => if str_eqb k' k then v else obj_get d' k default
  end.

(** [x.get(k)] on an arbitrary object: only a [dict] has the method, any
    other JSON value raises [AttributeError]. *)
Definition py_get (x : pyval) (k : pystr) (default : pyval) : pyresult pyval :=
  match x with
  | PDict d => Ok (obj_get d k default)
  | _ => Raise
  end.

(** ** Dictionary keys

    The hashable JSON values.  [True == 1] and [False == 0] in Python, and
    equal objects are the same key. *)

Inductive pykey : Type :=
| KNone
| KBool (b : bool)
| KInt (z : Z)
| KStr (s : pystr).

Definition key_num (k : pykey) : option Z :=
  match k with
  | KBool b => Some (Z.b2z b)
  | KInt z => Some z
  | _ => None
  end.

Definition key_eqb (a b : pykey) : bool :=
  match a, b with
  | KNone, KNone => true
  | KStr s, KStr t => str_eqb s t
  | _, _ =>
      match key_num a, key_num b with
      | Some x, Some y => x =? y
      | _, _ => false
      end
  end.

(** [hash(v)]: [None] for the unhashable [list] and [dict]. *)
Definition to_key (v : pyval) : option pykey :=
  match v with
  | PNone => Some KNone
  | PBool b => Some (KBool b)
  | PInt z => Some (KInt z)
  | PStr s => Some (KStr s)
  | PList _ | PDict _ => None
  end.

Definition of_key (k : pykey) : pyval :=
  match k with
  | KNone => PNone
  | KBool b => PBool b
  | KInt z => PInt z
  | KStr s => PStr s
  end.

(** [k == v] for a dictionary key [k]: a scalar never equals a [list] or a
    [dict]. *)
Definition py_eqb (k : pykey) (v : pyval) : bool :=
  match to_key v with
  | Some k' => key_eqb k k'
  | None => false
  end.

(** ** The registry: [active_connections: Dict[int, any] = {}]

    A websocket object is identified by a number.  A Python [dict] keeps its
    items in insertion order, which is the order [broadcast_message] walks
    them in. *)

Definition conn := nat.
Definition dict := list (pykey * conn).

(** [k in d] *)
Fixpoint dict_mem (d : dict) (k : pykey) : bool :=
  match d with
  | [] => false
  | (k', _) :: d' => key_eqb k' k || dict_mem d' k
  end.

(** [d.get(k)] *)
Fixpoint dict_find (d : dict) (k : pykey) : option conn :=
  match d with
  | [] => None
  | (k', c) :: d' => if key_eqb k' k then Some c else dict_find d' k
  end.

(** [d[k] = c]: an existing item keeps its place and its key object and
    takes the new value, a new item goes last. *)
Fixpoint dict_set (d : dict) (k : pykey) (c : conn) : dict :=
  match d with
  | [] => [(k, c)]
  | (k', c') :: d' =>
      if key_eqb k' k then (k', c) :: d' else (k', c') :: dict_set d' k c
  end.

(** [d.pop(k, None)], and [del d[k]] when [k in d]. *)
Fixpoint dict_pop (d : dict) (k : pykey) : dict :=
  match d with
  | [] => []
  | (k', c') :: d' =>
      if key_eqb k' k then d' else (k', c') :: dict_pop d' k
  end.

(** [d[v] = c] for an arbitrary object [v]: [TypeError] when unhashable. *)
Definition dict_setitem (d : dict) (v : pyval) (c : conn) : pyresult dict :=
  match to_key v with
  | Some k => Ok (dict_set d k c)
  | None => Raise
  end.

Definition keys (d : dict) : list pykey := map fst d.

(** No two items of a dictionary have equal keys. *)
Fixpoint dict_wf (d : dict) : bool :=
  match d with
  | [] => true
  | (k, _) :: d' => negb (dict_mem d' k) && dict_wf d'
  end.

Definition key_truthy (k : pykey) : bool := truthy (of_key k).

(** Every key passes the test [if not user_id] of the websocket handler. *)
Definition keys_truthy (d : dict) : bool :=
  forallb (fun kc => key_truthy (fst kc)) d.

(** ** Library and environment *)

(** A request made by [api_request] to the message store. *)
Inductive api_call : Type :=
| Get (endpoint : pystr) (params : pyval)
| Post (endpoint : pystr) (json : pyval).

Record env : Type := {
  (** [urllib.parse.parse_qs]: a [dict] from field names to lists of values,
      in order of first appearance, or an exception. *)
  parse_qs : pyval -> pyresult (list (pystr * list pystr));
  (** [json.loads] and [json.dumps] *)
  json_loads : pystr -> pyresult pyval;
  json_dumps : pyval -> pystr;
  (** [int(s)] for a [str] *)
  py_int : pystr -> pyresult Z;
  (** [os.getenv('YANDEX_CLOUD_API', '')] *)
  YANDEX_CLOUD_API : pystr;
  (** [requests.get] or [requests.post], [raise_for_status] and
      [response.json()], for the request made after [n] earlier ones. *)
  http : nat -> api_call -> pyresult pyval;
  (** Whether [ws.send(payload)] returns, for the send attempted after [n]
      earlier ones; it raises otherwise. *)
  ws_send_ok : nat -> conn -> pystr -> bool
}.

(** One [ws.send] call and whether it returned. *)
Record send_record : Type := {
  send_conn : conn;
  send_payload : pystr;
  send_ok : bool
}.

Record world : Type := {
  active_connections : dict;
  sends : list send_record;
  closes : list (conn * pystr);
  requests : list api_call;
  dumps_calls : nat
}.

Definition initial : world :=
  {| active_connections := []; sends := []; closes := []; requests := [];
     dumps_calls := 0 |}.

Definition set_connections (d : dict) (w : world) : world :=
  {| active_connections := d; sends := sends w; closes := closes w;
     requests := requests w; dumps_calls := dumps_calls w |}.

Definition log_send (r : send_record) (w : world) : world :=
  {| active_connections := active_connections w; sends := sends w ++ [r];
     closes := closes w; requests := requests w;
     dumps_calls := dumps_calls w |}.

Definition log_close (c : conn) (reason : pystr) (w : world) : world :=
  {| active_connections := active_connections w; sends := sends w;
     closes := closes w ++ [(c, reason)]; requests := requests w;
     dumps_calls := dumps_calls w |}.

Definition log_request (r : api_call) (w : world) : world :=
  {| active_connections := active_connections w; sends := sends w;
     closes := closes w; requests := requests w ++ [r];
     dumps_calls := dumps_calls w |}.

Definition count_dumps (w : world) : world :=
  {| active_connections := active_connections w; sends := sends w;
     closes := closes w; requests := requests w;
     dumps_calls := S (dumps_calls w) |}.

(** [json.dumps(message)] *)
Definition dumps (e : env) (message : pyval) (w : world) : pystr * world :=
  (json_dumps e message, count_dumps w).

(** [ws.send(payload)]: [true] when it returns, [false] when it raises. *)
Definition ws_send (e : env) (ws : conn) (payload : pystr) (w : world)
  : bool * world :=
  let ok := ws_send_ok e (length (sends w)) ws payload in
  (ok, log_send {| send_conn := ws; send_payload := payload; send_ok := ok |}
         w).

(** [len(active_connections)] *)
Definition online (w : world) : pyval :=
  PInt (Z.of_nat (length (active_connections w))).

(** ** [api_request] *)

Definition GET : pystr := lit "GET".
Definition POST : pystr := lit "POST".

Definition api_request (e : env) (method endpoint : pystr) (data : pyval)
    (w : world) : pyval * world :=
  match YANDEX_CLOUD_API e with
  | [] => (PNone, w)
  | _ :: _ =>
      let call :=
        if str_eqb method GET then Get endpoint data else Post endpoint data
      in
      let w' := log_request call w in
      match http e (length (requests w)) call with
      | Ok response => (response, w')
      | Raise => (PNone, w')
      end
  end.

(** ** [broadcast_message] *)

(** The test [exclude_user and user_id == exclude_user]. *)
Definition excluded (exclude_user : pyval) (user_id : pykey) : bool :=
  truthy exclude_user && py_eqb user_id exclude_user.

(** The first loop, over [list(active_connections.items())]. *)
Fixpoint broadcast_loop (e : env) (message exclude_user : pyval)
    (snapshot : list (pykey * conn)) (w : world) (disconnected : list pykey)
  : world * list pykey :=
  match snapshot with
  | [] => (w, disconnected)
  | (user_id, ws) :: rest =>
      if excluded exclude_user user_id then
        broadcast_loop e message exclude_user rest w disconnected
      else
        let (payload, w1) := dumps e message w in
        let (ok, w2) := ws_send e ws payload w1 in
        broadcast_loop e message exclude_user rest w2
          (if ok then disconnected else disconnected ++ [user_id])
  end.

(** The second loop: [active_connections.pop(user_id, None)]. *)
Fixpoint pop_all (disconnected : list pykey) (d : dict) : dict :=
  match disconnected with
  | [] => d
  | user_id :: rest => pop_all rest (dict_pop d user_id)
  end.

Definition broadcast_message (e : env) (message exclude_user : pyval)
    (w : world) : world :=
  let (w1, disconnected) :=
    broadcast_loop e message exclude_user (active_connections w) w []
  in
  set_connections (pop_all disconnected (active_connections w1)) w1.

(** ** Identity extraction

    The three lines inside [try] that [send_message] and [websocket] share:
    [parsed = parse_qs(init_data)],
    [user_data = json.loads(parsed.get('user', ['{}'])[0])],
    [user_id = user_data.get('id')].
    [Raise] is the [except:] branch of either handler. *)

Fixpoint form_get (parsed : list (pystr * list pystr)) (k : pystr)
    (default : list pystr) : list pystr :=
  match parsed with
  | [] => default
  | (k', vs) :: rest => if str_eqb k' k then vs else form_get rest k default
  end.

Definition extract_user_id (e : env) (init_data : pyval) : pyresult pyval :=
  match parse_qs e init_data with
  | Raise => Raise
  | Ok parsed =>
      match form_get parsed (lit "user") [lit "{}"] with
      | [] => Raise
      | first :: _ =>
          match json_loads e first with
          | Raise => Raise
          | Ok user_data => py_get user_data (lit "id") PNone
          end
      end
  end.

(** ** HTTP handlers *)

(** What a view function hands back to Flask: [jsonify(body), status], or
    an exception that no handler of the application catches. *)
Inductive response : Type :=
| Response (status : Z) (body : pyval)
| Unhandled.

Definition error_body (msg : string) : pyval :=
  PDict [(lit "error", PStr (lit msg))].

Definition new_message (message : pyval) : pyval :=
  PDict [(lit "type", PStr (lit "new_message")); (lit "message", message)].

Definition user_joined (user_id nickname : pyval) : pyval :=
  PDict [(lit "type", PStr (lit "user_joined")); (lit "user_id", user_id);
         (lit "nickname", nickname)].

Definition user_left (user_id nickname : pyval) : pyval :=
  PDict [(lit "type", PStr (lit "user_left")); (lit "user_id", user_id);
         (lit "nickname", nickname)].

Definition online_count (count : pyval) : pyval :=
  PDict [(lit "type", PStr (lit "online_count")); (lit "count", count)].

(** [POST /api/send_message]; [data] is [request.json]. *)
Definition send_message (e : env) (data : pyval) (w : world)
  : response * world :=
  match py_get data (lit "init_data") (PStr []) with
  | Raise => (Unhandled, w)
  | Ok init_data =>
      match extract_user_id e init_data with
      | Raise => (Response 401 (error_body "Invalid init_data"), w)
      | Ok user_id =>
          match py_get data (lit "text") (PStr []) with
          | Ok (PStr raw) =>
              let text := strip raw in
              match py_get data (lit "reply_to_id") PNone with
              | Raise => (Unhandled, w)
              | Ok reply_to_id =>
                  if negb (truthy (PStr text)) || (len text >? 1000) then
                    (Response 400 (error_body "Invalid message"), w)
                  else
                    let (message, w1) :=
                      api_request e POST (lit "send_message")
                        (PDict [(lit "user_id", user_id);
                                (lit "text", PStr text);
                                (lit "reply_to_id", reply_to_id)]) w in
                    if negb (truthy message) then
                      (Response 500 (error_body "Failed to save message"), w1)
                    else
                      let w2 := broadcast_message e (new_message message)
                                  PNone w1 in
                      (Response 200
                         (PDict [(lit "success", PBool true);
                                 (lit "message", message)]), w2)
              end
          | _ => (Unhandled, w)
          end
      end
  end.

(** [request.args.get(k)]: the first value of the query parameter. *)
Fixpoint args_get (args : list (pystr * pystr)) (k : pystr) : option pystr :=
  match args with
  | [] => None
  | (k', v) :: rest => if str_eqb k' k then Some v else args_get rest k
  end.

(** [GET /api/messages]; [args] is [request.args]. *)
Definition get_messages (e : env) (args : list (pystr * pystr)) (w : world)
  : response * world :=
  let limit :=
    match args_get args (lit "limit") with
    | None => Ok 30
    | Some s => py_int e s
    end in
  match limit with
  | Raise => (Unhandled, w)
  | Ok limit =>
      let before_id := args_get args (lit "before_id") in
      let params :=
        match before_id with
        | Some (c :: s) =>
            match py_int e (c :: s) with
            | Ok n => Ok [(lit "limit", PInt limit); (lit "before_id", PInt n)]
            | Raise => Raise
            end
        | _ => Ok [(lit "limit", PInt limit)]
        end in
      match params with
      | Raise => (Unhandled, w)
      | Ok params =>
          let (result, w1) :=
            api_request e GET (lit "messages") (PDict params) w in
          if truthy result then (Response 200 result, w1)
          else (Response 200
                  (PDict [(lit "messages", PList []);
                          (lit "has_more", PBool false)]), w1)
      end
  end.


(** ** The websocket handler

    [websocket(ws)] runs in three parts: the code before the receive loop,
    the loop itself, which blocks and changes nothing, and the [finally]
    block.  [websocket_open] is the first part, together with the [finally]
    block whenever the handler leaves before reaching the loop;
    [websocket_finally] is the [finally] block. *)

Inductive exit : Type :=
| Returned          (* the handler returned *)
| Propagated.       (* an exception left the handler *)

(** [profile.get('nickname')] under [if profile:], then the broadcast built
    from it; [build] is [user_joined] or [user_left]. *)
Definition announce (e : env) (build : pyval -> pyval -> pyval)
    (user_id profile : pyval) (w : world) : pyresult world :=
  if truthy profile then
    match py_get profile (lit "nickname") PNone with
    | Raise => Raise
    | Ok nickname =>
        Ok (broadcast_message e (build user_id nickname) user_id w)
    end
  else Ok w.

Definition profile_params (user_id : pyval) : pyval :=
  PDict [(lit "user_id", user_id)].

(** The [finally] block, entered with the local variable [user_id]. *)
Definition websocket_finally (e : env) (user_id : pyval) (w : world)
  : exit * world :=
  if truthy user_id then
    match to_key user_id with
    | None => (Propagated, w)
    | Some k =>
        if dict_mem (active_connections w) k then
          let w1 := set_connections (dict_pop (active_connections w) k) w in
          let (profile, w2) :=
            api_request e GET (lit "user/profile") (profile_params user_id) w1
          in
          match announce e user_left user_id profile w2 with
          | Raise => (Propagated, w2)
          | Ok w3 =>
              (Returned, broadcast_message e (online_count (online w3)) PNone
                           w3)
          end
        else (Returned, w)
    end
  else (Returned, w).

(** Where the handler stands when [websocket_open] is over. *)
Inductive ws_state : Type :=
| Active (user_id : pyval)   (* blocked in [ws.receive()] *)
| Closed (how : exit).

Definition websocket_open (e : env) (init_data : pystr) (ws : conn)
    (w : world) : ws_state * world :=
  match extract_user_id e (PStr init_data) with
  | Raise =>
      (* [user_id] is still [None] in the [finally] block *)
      let w1 := log_close ws (lit "Invalid init_data") w in
      let (x, w2) := websocket_finally e PNone w1 in (Closed x, w2)
  | Ok user_id =>
      if negb (truthy user_id) then
        let w1 := log_close ws (lit "No user_id") w in
        let (x, w2) := websocket_finally e user_id w1 in (Closed x, w2)
      else
        match dict_setitem (active_connections w) user_id ws with
        | Raise =>
            let (x, w1) := websocket_finally e user_id w in (Closed x, w1)
        | Ok d =>
            let w1 := set_connections d w in
            let (profile, w2) :=
              api_request e GET (lit "user/profile") (profile_params user_id)
                w1 in
            match announce e user_joined user_id profile w2 with
            | Raise =>
                let (x, w3) := websocket_finally e user_id w2 in
                (Closed x, w3)
            | Ok w3 =>
                (Active user_id,
                 broadcast_message e (online_count (online w3)) PNone w3)
            end
        end
  end.

(** The receive loop ended, by [None] or by an exception, which
    [except Exception] logs; the [finally] block runs. *)
Definition websocket_close (e : env) (user_id : pyval) (w : world)
  : exit * world :=
  websocket_finally e user_id w.

(** ** The running application

    Handlers run one after the other; a websocket handler that reached its
    receive loop is remembered by the value of its [user_id]. *)

Record system : Type := {
  state : world;
  sessions : list pyval
}.

(** The sessions left when the [n]-th one ends. *)
Fixpoint remove_nth (n : nat) (l : list pyval) : list pyval :=
  match l, n with
  | [], _ => []
  | _ :: l', O => l'
  | x :: l', S n' => x :: remove_nth n' l'
  end.

Inductive reachable : system -> Prop :=
| reach_start : reachable {| state := initial; sessions := [] |}
| reach_open e init_data ws s st w :
    reachable s ->
    websocket_open e init_data ws (state s) = (st, w) ->
    reachable {| state := w;
                 sessions := match st with
                             | Active u => sessions s ++ [u]
                             | Closed _ => sessions s
                             end |}
| reach_close e n u s x w :
    reachable s ->
    nth_error (sessions s) n = Some u ->
    websocket_close e u (state s) = (x, w) ->
    reachable {| state := w; sessions := remove_nth n (sessions s) |}
| reach_send e data s r w :
    reachable s ->
    send_message e data (state s) = (r, w) ->
    reachable {| state := w; sessions := sessions s |}
| reach_list e args s r w :
    reachable s ->
    get_messages e args (state s) = (r, w) ->
    reachable {| state := w; sessions := sessions s |}.

(** ** A sample environment

    Library answers on the inputs used in the examples below, as CPython
    gives them; the tables are not consulted anywhere else. *)

Definition quote : pystr := [34%N].

(** [user={"id":ID}] *)
Definition token (id : pystr) : pystr :=
  lit "user={" ++ quote ++ lit "id" ++ quote ++ lit ":" ++ id ++ lit "}".

(** [{"id":ID}] *)
Definition payload_of (id : pystr) : pystr :=
  lit "{" ++ quote ++ lit "id" ++ quote ++ lit ":" ++ id ++ lit "}".

Definition id_abc : pystr := quote ++ lit "abc" ++ quote.

Definition sample_parse_qs (v : pyval) : pyresult (list (pystr * list pystr)) :=
  match v with
  | PStr s =>
      if str_eqb s (token (lit "42")) then
        Ok [(lit "user", [payload_of (lit "42")])]
      else if str_eqb s (token (lit "7")) then
        Ok [(lit "user", [payload_of (lit "7")])]
      else if str_eqb s (token (lit "0")) then
        Ok [(lit "user", [payload_of (lit "0")])]
      else if str_eqb s (token id_abc) then
        Ok [(lit "user", [payload_of id_abc])]
      else if str_eqb s (lit "user=oops") then
        Ok [(lit "user", [lit "oops"])]
      else if str_eqb s (lit "user=5") then
        Ok [(lit "user", [lit "5"])]
      else if str_eqb s (lit "auth_date=1") then
        Ok [(lit "auth_date", [lit "1"])]
      else Ok []
  | _ => Raise
  end.

Definition sample_json_loads (s : pystr) : pyresult pyval :=
  if str_eqb s (lit "{}") then Ok (PDict [])
  else if str_eqb s (payload_of (lit "42")) then
    Ok (PDict [(lit "id", PInt 42)])
  else if str_eqb s (payload_of (lit "7")) then
    Ok (PDict [(lit "id", PInt 7)])
  else if str_eqb s (payload_of (lit "0")) then
    Ok (PDict [(lit "id", PInt 0)])
  else if str_eqb s (payload_of id_abc) then
    Ok (PDict [(lit "id", PStr (lit "abc"))])
  else if str_eqb s (lit "5") then Ok (PInt 5)
  else Raise.

Definition sample_int (s : pystr) : pyresult Z :=
  if str_eqb s (lit "30") then Ok 30
  else if str_eqb s (lit "10") then Ok 10
  else Raise.

(** The store knows every user under one nickname and echoes what it is
    asked to save. *)
Definition sample_http (n : nat) (call : api_call) : pyresult pyval :=
  match call with
  | Get endpoint _ =>
      if str_eqb endpoint (lit "user/profile") then
        Ok (PDict [(lit "nickname", PStr (lit "neo"))])
      else Raise
  | Post _ json => Ok json
  end.

(** [json.dumps] with its default arguments, on the objects of [pyval]:
    separators [", "] and [": "], and every character outside the printable
    ASCII range escaped. *)
Definition hex_digit (n : N) : char :=
  (if n <? 10 then 48 + n else 87 + n)%N.

Definition escape_u (c : N) : pystr :=
  [92; 117; hex_digit (c / 4096 mod 16); hex_digit (c / 256 mod 16);
   hex_digit (c / 16 mod 16); hex_digit (c mod 16)]%N.

Definition escape_char (c : char) : pystr :=
  (if c =? 34 then [92; 34]
   else if c =? 92 then [92; 92]
   else if c =? 10 then [92; 110]
   else if c =? 13 then [92; 114]
   else if c =? 9 then [92; 116]
   else if c =? 8 then [92; 98]
   else if c =? 12 then [92; 102]
   else if (32 <=? c) && (c <=? 126) then [c]
   else if c <? 65536 then escape_u c
   else escape_u (55296 + (c - 65536) / 1024)
        ++ escape_u (56320 + (c - 65536) mod 1024))%N.

Definition dumps_str (s : pystr) : pystr :=
  quote ++ flat_map escape_char s ++ quote.

Fixpoint sample_dumps (v : pyval) : pystr :=
  match v with
  | PNone => lit "null"
  | PBool true => lit "true"
  | PBool false => lit "false"
  | PInt z => lit (NilZero.string_of_int (Z.to_int z))
  | PStr s => dumps_str s
  | PList l =>
      lit "["
      ++ (fix items (l : list pyval) : pystr :=
            match l with
            | [] => []
            | x :: rest =>
                sample_dumps x
                ++ match rest with [] => [] | _ => lit ", " ++ items rest end
            end) l
      ++ lit "]"
  | PDict d =>
      lit "{"
      ++ (fix members (d : list (pystr * pyval)) : pystr :=
            match d with
            | [] => []
            | (k, x) :: rest =>
                dumps_str k ++ lit ": " ++ sample_dumps x
                ++ match rest with [] => [] | _ => lit ", " ++ members rest end
            end) d
      ++ lit "}"
  end.

(** The transport of connection [2] is broken, the others deliver. *)
Definition sample : env :=
  {| parse_qs := sample_parse_qs;
     json_loads := sample_json_loads;
     json_dumps := sample_dumps;
     py_int := sample_int;
     YANDEX_CLOUD_API := lit "https://store.example";
     http := sample_http;
     ws_send_ok := fun _ ws _ => negb (Nat.eqb ws 2) |}.

(** ** Vocabulary of the statements *)

(** The items of the registry the first loop of [broadcast_message] does not
    skip. *)
Definition targets (exclude_user : pyval) (d : dict) : dict :=
  filter (fun kc => negb (excluded exclude_user (fst kc))) d.

(** The [ws.send] calls made on the items [ts], the first of them after [n]
    earlier calls, and the keys of those that raise. *)
Fixpoint attempts (e : env) (payload : pystr) (n : nat) (ts : dict)
  : list send_record :=
  match ts with
  | [] => []
  | (_, ws) :: rest =>
      {| send_conn := ws; send_payload := payload;
         send_ok := ws_send_ok e n ws payload |}
      :: attempts e payload (S n) rest
  end.

Fixpoint failures (e : env) (payload : pystr) (n : nat) (ts : dict)
  : list pykey :=
  match ts with
  | [] => []
  | (k, ws) :: rest =>
      if ws_send_ok e n ws payload then failures e payload (S n) rest
      else k :: failures e payload (S n) rest
  end.

(** What a handler added to a log. *)
Definition new_sends (before after : world) : list send_record :=
  skipn (length (sends before)) (sends after).

Definition new_requests (before after : world) : list api_call :=
  skipn (length (requests before)) (requests after).

Definition key_in (k : pykey) (l : list pykey) : bool :=
  existsb (key_eqb k) l.

(** Number of items of a dictionary under the key [k]. *)
Definition count_key (d : dict) (k : pykey) : nat :=
  length (filter (fun kc => key_eqb (fst kc) k) d).

(** The invariant of the registry: one item per key, and no key that the
    websocket handler would have turned away. *)
Definition registry_inv (d : dict) : bool := dict_wf d && keys_truthy d.

(** [k in parsed] for the result of [parse_qs]. *)
Definition has_field (parsed : list (pystr * list pystr)) (k : pystr) : bool :=
  existsb (fun kv => str_eqb (fst kv) k) parsed.

Definition is_dict (v : pyval) : bool :=
  match v with
  | PDict _ => true
  | _ => false
  end.

(** The request that [send_message] makes to the store. *)
Definition save_call (user_id : pyval) (text : pystr) (reply_to_id : pyval)
  : api_call :=
  Post (lit "send_message")
    (PDict [(lit "user_id", user_id); (lit "text", PStr text);
            (lit "reply_to_id", reply_to_id)]).

(** A room used in the examples: users 1, 2 and 3 on connections 1, 2
    and 3. *)
Definition room : world :=
  {| active_connections := [(KInt 1, 1%nat); (KInt 2, 2%nat); (KInt 3, 3%nat)];
     sends := []; closes := []; requests := []; dumps_calls := 0 |}.

(** ** The remaining routes *)

(** [POST /api/user/profile]; [data] is [request.json]. *)
Definition get_user_profile (e : env) (data : pyval) (w : world)
  : response * world :=
  match py_get data (lit "user_id") PNone with
  | Raise => (Unhandled, w)
  | Ok user_id =>
      if negb (truthy user_id) then
        (Response 400 (error_body "No user_id"), w)
      else
        let (result, w1) :=
          api_request e GET (lit "user/profile") (profile_params user_id) w in
        if negb (truthy result) then
          (Response 404 (error_body "User not found"), w1)
        else (Response 200 result, w1)
  end.


(** ** More vocabulary *)

(** Every transport accepts every send. *)
Definition reliable (e : env) : Prop :=
  forall n c p, ws_send_ok e n c p = true.

(** The sends that deliver [payload] to the items [ts], in order. *)
Definition delivered (payload : pystr) (ts : dict) : list send_record :=
  map (fun kc => {| send_conn := snd kc; send_payload := payload;
                    send_ok := true |}) ts.

(** The items of the registry whose key is not equal to [u]. *)
Definition others (u : pyval) (d : dict) : dict :=
  filter (fun kc => negb (py_eqb (fst kc) u)) d.



(** The request for the profile of [user_id]. *)
Definition profile_call (user_id : pyval) : api_call :=
  Get (lit "user/profile") (profile_params user_id).

(** The sample environment with every transport in order. *)
Definition calm : env :=
  {| parse_qs := sample_parse_qs;
     json_loads := sample_json_loads;
     json_dumps := sample_dumps;
     py_int := sample_int;
     YANDEX_CLOUD_API := lit "https://store.example";
     http := sample_http;
     ws_send_ok := fun _ _ _ => true |}.

(** The page [get_messages] answers with when the store gives nothing. *)
Definition no_messages : pyval :=
  PDict [(lit "messages", PList []); (lit "has_more", PBool false)].

(** What [api_request] returns for the answer of the HTTP client. *)
Definition answer_of (r : pyresult pyval) : pyval :=
  match r with
  | Ok v => v
  | Raise => PNone
  end.

(** The sample environment with no store configured. *)
Definition offline : env :=
  {| parse_qs := sample_parse_qs;
     json_loads := sample_json_loads;
     json_dumps := sample_dumps;
     py_int := sample_int;
     YANDEX_CLOUD_API := [];
     http := sample_http;
     ws_send_ok := fun _ ws _ => negb (Nat.eqb ws 2) |}.

(** An environment for the odd cases: the token [user={"id":[1]}], whose
    [id] is a JSON array, and a store that answers every profile request
    with the JSON array [[1]]. *)
Definition quirky : env :=
  {| parse_qs := fun v =>
       match v with
       | PStr s =>
           if str_eqb s (token (lit "[1]")) then
             Ok [(lit "user", [payload_of (lit "[1]")])]
           else sample_parse_qs v
       | _ => sample_parse_qs v
       end;
     json_loads := fun s =>
       if str_eqb s (payload_of (lit "[1]")) then
         Ok (PDict [(lit "id", PList [PInt 1])])
       else sample_json_loads s;
     json_dumps := sample_dumps;
     py_int := sample_int;
     YANDEX_CLOUD_API := lit "https://store.example";
     http := fun _ _ => Ok (PList [PInt 1]);
     ws_send_ok := fun _ _ _ => true |}.

(** The application after user 7 has joined an empty room on connection
    4. *)
Definition lobby : system :=
  {| state := snd (websocket_open sample (token (lit "7")) 4%nat initial);
     sessions := [PInt 7] |}.

(** * Properties *)

(** ** Equality of strings and keys *)

Lemma str_eqb_eq (s t : pystr) : str_eqb s t = true <-> s = t.
Proof.
  revert t; induction s as [|a s IH]; intros [|b t]; simpl;
    try (split; [discriminate | congruence]); try tauto.
  rewrite andb_true_iff, N.eqb_eq, IH.
  split; [intros [-> ->]; reflexivity | intros H; injection H; auto].
Qed.

Lemma str_eqb_refl (s : pystr) : str_eqb s s = true.
Proof. apply str_eqb_eq; reflexivity. Qed.

Lemma key_eqb_refl (k : pykey) : key_eqb k k = true.
Proof.
  destruct k; cbn [key_eqb key_num]; auto using str_eqb_refl, Z.eqb_refl.
Qed.

Lemma key_eqb_sym (a b : pykey) : key_eqb a b = key_eqb b a.
Proof.
  destruct a, b; cbn [key_eqb key_num]; auto using Z.eqb_sym.
  destruct (str_eqb s s0) eqn:E; destruct (str_eqb s0 s) eqn:F; auto.
  - apply str_eqb_eq in E; subst; rewrite str_eqb_refl in F; discriminate.
  - apply str_eqb_eq in F; subst; rewrite str_eqb_refl in E; discriminate.
Qed.

Lemma key_eqb_trans (a b c : pykey) :
  key_eqb a b = true -> key_eqb b c = true -> key_eqb a c = true.
Proof.
  destruct a as [|[]| |], b as [|[]| |], c as [|[]| |];
    cbn [key_eqb key_num Z.b2z]; intros H1 H2; try discriminate; auto;
    rewrite ?Z.eqb_eq, ?str_eqb_eq in *; try congruence; lia.
Qed.

(** Equal keys have the same truth value. *)
Lemma key_eqb_truthy (a b : pykey) :
  key_eqb a b = true -> key_truthy a = key_truthy b.
Proof.
  unfold key_truthy.
  destruct a as [|[]| |], b as [|[]| |];
    cbn [key_eqb key_num Z.b2z of_key truthy]; intros H;
    try discriminate; auto;
    rewrite ?Z.eqb_eq, ?str_eqb_eq in *; subst; auto; try discriminate.
Qed.

Lemma to_key_of_key (k : pykey) : to_key (of_key k) = Some k.
Proof. destruct k; reflexivity. Qed.

Lemma of_key_to_key (v : pyval) (k : pykey) : to_key v = Some k -> of_key k = v.
Proof. destruct v; simpl; intros H; inversion H; reflexivity. Qed.

(** On a registry whose keys are all truthy, the guard of
    [broadcast_message] is the comparison [user_id == exclude_user]. *)
Lemma excluded_truthy_key (u : pyval) (k : pykey) :
  key_truthy k = true -> excluded u k = py_eqb k u.
Proof.
  unfold excluded, py_eqb; intros Hk.
  destruct (to_key u) as [k'|] eqn:E; [|apply andb_false_r].
  destruct (key_eqb k k') eqn:Q; [|apply andb_false_r].
  rewrite andb_true_r, <- (of_key_to_key _ _ E).
  rewrite <- Hk; symmetry; apply key_eqb_truthy; exact Q.
Qed.

(** ** The dictionary operations *)

Lemma dict_mem_congr (d : dict) (a b : pykey) :
  key_eqb a b = true -> dict_mem d a = dict_mem d b.
Proof.
  intros H; induction d as [|[k c] d IH]; simpl; auto.
  rewrite IH; f_equal.
  destruct (key_eqb k a) eqn:E, (key_eqb k b) eqn:F; auto.
  - rewrite (key_eqb_trans _ _ _ E H) in F; discriminate.
  - rewrite key_eqb_sym in H.
    rewrite (key_eqb_trans _ _ _ F H) in E; discriminate.
Qed.

Lemma dict_mem_find (d : dict) (k : pykey) :
  dict_mem d k = match dict_find d k with Some _ => true | None => false end.
Proof.
  induction d as [|[k' c] d IH]; simpl; auto.
  destruct (key_eqb k' k); simpl; auto.
Qed.

Lemma dict_mem_set (d : dict) (k k' : pykey) (c : conn) :
  dict_mem (dict_set d k c) k' = key_eqb k k' || dict_mem d k'.
Proof.
  induction d as [|[a x] d IH]; simpl.
  - reflexivity.
  - destruct (key_eqb a k) eqn:E; simpl.
    + destruct (key_eqb a k') eqn:F; simpl.
      * symmetry; apply orb_true_r.
      * destruct (key_eqb k k') eqn:G; auto.
        rewrite (key_eqb_trans _ _ _ E G) in F; discriminate.
    + rewrite IH. destruct (key_eqb a k'), (key_eqb k k'); auto.
Qed.

Lemma dict_find_set_same (d : dict) (k : pykey) (c : conn) :
  dict_find (dict_set d k c) k = Some c.
Proof.
  induction d as [|[a x] d IH]; simpl.
  - rewrite key_eqb_refl; reflexivity.
  - destruct (key_eqb a k) eqn:E; simpl; rewrite E; auto.
Qed.

Lemma dict_wf_set (d : dict) (k : pykey) (c : conn) :
  dict_wf d = true -> dict_wf (dict_set d k c) = true.
Proof.
  induction d as [|[a x] d IH]; simpl; auto.
  rewrite andb_true_iff, negb_true_iff; intros [Ha Hd].
  destruct (key_eqb a k) eqn:E; simpl.
  - rewrite Ha, Hd; reflexivity.
  - rewrite dict_mem_set, Ha, IH by assumption.
    rewrite key_eqb_sym, E; reflexivity.
Qed.

Lemma dict_set_length (d : dict) (k : pykey) (c : conn) :
  length (dict_set d k c)
  = if dict_mem d k then length d else S (length d).
Proof.
  induction d as [|[a x] d IH]; simpl; auto.
  destruct (key_eqb a k); simpl; auto.
  rewrite IH; destruct (dict_mem d k); reflexivity.
Qed.

Lemma dict_pop_absent (d : dict) (k : pykey) :
  dict_mem d k = false -> dict_pop d k = d.
Proof.
  induction d as [|[a x] d IH]; simpl; auto.
  rewrite orb_false_iff; intros [-> H]; rewrite IH; auto.
Qed.

Lemma dict_mem_pop_other (d : dict) (k k' : pykey) :
  dict_mem (dict_pop d k) k' = true -> dict_mem d k' = true.
Proof.
  induction d as [|[a x] d IH]; simpl; auto.
  destruct (key_eqb a k); simpl.
  - intros ->; apply orb_true_r.
  - rewrite !orb_true_iff; tauto.
Qed.

Lemma dict_wf_pop (d : dict) (k : pykey) :
  dict_wf d = true -> dict_wf (dict_pop d k) = true.
Proof.
  induction d as [|[a x] d IH]; simpl; auto.
  rewrite andb_true_iff, negb_true_iff; intros [Ha Hd].
  destruct (key_eqb a k); simpl; auto.
  rewrite IH, andb_true_r, negb_true_iff by assumption.
  destruct (dict_mem (dict_pop d k) a) eqn:E; auto.
  apply dict_mem_pop_other in E; congruence.
Qed.

Lemma dict_mem_pop_same (d : dict) (k : pykey) :
  dict_wf d = true -> dict_mem (dict_pop d k) k = false.
Proof.
  induction d as [|[a x] d IH]; simpl; auto.
  rewrite andb_true_iff, negb_true_iff; intros [Ha Hd].
  destruct (key_eqb a k) eqn:E; simpl.
  - rewrite <- (dict_mem_congr d _ _ E); exact Ha.
  - rewrite E, IH; auto.
Qed.

Lemma dict_find_pop_other (d : dict) (k k' : pykey) :
  key_eqb k k' = false ->
  dict_find (dict_pop d k) k' = dict_find d k'.
Proof.
  intros H; induction d as [|[a x] d IH]; simpl; auto.
  destruct (key_eqb a k) eqn:E; simpl.
  - destruct (key_eqb a k') eqn:F; auto.
    rewrite key_eqb_sym in E.
    rewrite (key_eqb_trans _ _ _ E F) in H; discriminate.
  - rewrite IH; reflexivity.
Qed.

Lemma keys_truthy_pop (d : dict) (k : pykey) :
  keys_truthy d = true -> keys_truthy (dict_pop d k) = true.
Proof.
  unfold keys_truthy.
  induction d as [|[a x] d IH]; simpl; auto.
  rewrite andb_true_iff; intros [Ha Hd].
  destruct (key_eqb a k); simpl; auto.
  rewrite Ha, IH; auto.
Qed.

Lemma keys_truthy_set (d : dict) (k : pykey) (c : conn) :
  key_truthy k = true -> keys_truthy d = true ->
  keys_truthy (dict_set d k c) = true.
Proof.
  unfold keys_truthy; intros Hk.
  induction d as [|[a x] d IH]; simpl.
  - rewrite Hk; reflexivity.
  - rewrite andb_true_iff; intros [Ha Hd].
    destruct (key_eqb a k); simpl; rewrite Ha; auto.
Qed.

Lemma pop_all_wf (l : list pykey) (d : dict) :
  dict_wf d = true -> dict_wf (pop_all l d) = true.
Proof.
  revert d; induction l as [|k l IH]; simpl; auto using dict_wf_pop.
Qed.

Lemma pop_all_truthy (l : list pykey) (d : dict) :
  keys_truthy d = true -> keys_truthy (pop_all l d) = true.
Proof.
  revert d; induction l as [|k l IH]; simpl; auto using keys_truthy_pop.
Qed.

Lemma pop_all_length (l : list pykey) (d : dict) :
  (length (pop_all l d) <= length d)%nat.
Proof.
  revert d; induction l as [|k l IH]; simpl; intros d; auto.
  etransitivity; [apply IH|].
  clear; induction d as [|[a x] d IH]; simpl; auto.
  destruct (key_eqb a k); simpl; lia.
Qed.

(** ** [broadcast_message] *)

Section Broadcast.
Variable e : env.
Variables message exclude_user : pyval.

Lemma broadcast_loop_spec (snapshot : dict) (w : world)
    (disconnected : list pykey) :
  broadcast_loop e message exclude_user snapshot w disconnected
  = ({| active_connections := active_connections w;
        sends := sends w ++ attempts e (json_dumps e message) (length (sends w))
                              (targets exclude_user snapshot);
        closes := closes w;
        requests := requests w;
        dumps_calls := dumps_calls w
                       + length (targets exclude_user snapshot) |},
     disconnected ++ failures e (json_dumps e message) (length (sends w))
                       (targets exclude_user snapshot)).
Proof.
  revert w disconnected.
  induction snapshot as [|[user_id ws] rest IH]; intros w disconnected.
  - simpl. rewrite !app_nil_r, Nat.add_0_r. destruct w; reflexivity.
  - cbn [broadcast_loop targets filter fst].
    destruct (excluded exclude_user user_id); cbn [negb].
    + apply IH.
    + cbn [dumps ws_send]. rewrite IH. fold (targets exclude_user rest).
      cbn [log_send count_dumps sends active_connections closes requests
           dumps_calls attempts failures length].
      rewrite !length_app, Nat.add_1_r, <- !app_assoc.
      cbn [length app].
      rewrite <- plus_n_Sm.
      destruct (ws_send_ok e (length (sends w)) ws (json_dumps e message));
        rewrite <- ?app_assoc; reflexivity.
Qed.

Lemma broadcast_message_spec (w : world) :
  broadcast_message e message exclude_user w
  = {| active_connections :=
         pop_all (failures e (json_dumps e message) (length (sends w))
                    (targets exclude_user (active_connections w)))
                 (active_connections w);
       sends := sends w ++ attempts e (json_dumps e message) (length (sends w))
                             (targets exclude_user (active_connections w));
       closes := closes w;
       requests := requests w;
       dumps_calls := dumps_calls w
                      + length (targets exclude_user
                                  (active_connections w)) |}.
Proof.
  unfold broadcast_message. rewrite broadcast_loop_spec. reflexivity.
Qed.

Lemma broadcast_new_sends (w : world) :
  new_sends w (broadcast_message e message exclude_user w)
  = attempts e (json_dumps e message) (length (sends w))
      (targets exclude_user (active_connections w)).
Proof.
  unfold new_sends. rewrite broadcast_message_spec. cbn [sends].
  rewrite skipn_app, skipn_all, Nat.sub_diag. reflexivity.
Qed.

Lemma broadcast_requests (w : world) :
  requests (broadcast_message e message exclude_user w) = requests w.
Proof. rewrite broadcast_message_spec; reflexivity. Qed.

Lemma broadcast_closes (w : world) :
  closes (broadcast_message e message exclude_user w) = closes w.
Proof. rewrite broadcast_message_spec; reflexivity. Qed.

Lemma broadcast_wf (w : world) :
  dict_wf (active_connections w) = true ->
  dict_wf (active_connections (broadcast_message e message exclude_user w))
  = true.
Proof. rewrite broadcast_message_spec; apply pop_all_wf. Qed.

Lemma broadcast_truthy (w : world) :
  keys_truthy (active_connections w) = true ->
  keys_truthy
    (active_connections (broadcast_message e message exclude_user w))
  = true.
Proof. rewrite broadcast_message_spec; apply pop_all_truthy. Qed.

Lemma broadcast_inv (w : world) :
  registry_inv (active_connections w) = true ->
  registry_inv
    (active_connections (broadcast_message e message exclude_user w))
  = true.
Proof.
  unfold registry_inv; rewrite !andb_true_iff; intros [H1 H2].
  auto using broadcast_wf, broadcast_truthy.
Qed.
End Broadcast.

(** ** Failed deliveries and the second loop *)

Lemma dict_mem_In (d : dict) (k : pykey) (c : conn) :
  In (k, c) d -> dict_mem d k = true.
Proof.
  induction d as [|[a x] d IH]; simpl; [tauto|].
  intros [H|H].
  - inversion H; subst; rewrite key_eqb_refl; reflexivity.
  - rewrite IH, orb_true_r; auto.
Qed.

Lemma dict_find_In (d : dict) (k : pykey) (c : conn) :
  dict_wf d = true -> In (k, c) d -> dict_find d k = Some c.
Proof.
  induction d as [|[a x] d IH]; simpl; [tauto|].
  rewrite andb_true_iff, negb_true_iff; intros [Ha Hd] [H|H].
  - inversion H; subst; rewrite key_eqb_refl; reflexivity.
  - destruct (key_eqb a k) eqn:E; auto.
    apply dict_mem_In in H.
    rewrite (dict_mem_congr d _ _ E) in Ha; congruence.
Qed.

Lemma dict_wf_filter (f : pykey * conn -> bool) (d : dict) :
  dict_wf d = true -> dict_wf (filter f d) = true.
Proof.
  assert (M : forall d k, dict_mem (filter f d) k = true ->
                          dict_mem d k = true).
  { clear; induction d as [|[a x] d IH]; simpl; auto; intros k.
    destruct (f (a, x)); simpl; rewrite ?orb_true_iff; intuition. }
  induction d as [|[a x] d IH]; simpl; auto.
  rewrite andb_true_iff, negb_true_iff; intros [Ha Hd].
  destruct (f (a, x)); simpl; auto.
  rewrite IH, andb_true_r, negb_true_iff by assumption.
  destruct (dict_mem (filter f d) a) eqn:E; auto.
  apply M in E; congruence.
Qed.

Lemma pop_all_mem_false (l : list pykey) (d : dict) (k : pykey) :
  dict_mem d k = false -> dict_mem (pop_all l d) k = false.
Proof.
  revert d; induction l as [|a l IH]; simpl; auto; intros d H.
  apply IH. destruct (dict_mem (dict_pop d a) k) eqn:E; auto.
  apply dict_mem_pop_other in E; congruence.
Qed.

(** A key that was recorded as failed is gone after the second loop. *)
Lemma pop_all_removes (l : list pykey) (d : dict) (k : pykey) :
  dict_wf d = true -> key_in k l = true ->
  dict_mem (pop_all l d) k = false.
Proof.
  unfold key_in.
  revert d; induction l as [|a l IH]; simpl; [discriminate|]; intros d W.
  destruct (key_eqb k a) eqn:E; simpl.
  - intros _. apply pop_all_mem_false.
    rewrite (dict_mem_congr _ _ _ E). apply dict_mem_pop_same, W.
  - apply IH, dict_wf_pop, W.
Qed.

(** A key that was not recorded keeps its item. *)
Lemma pop_all_keeps (l : list pykey) (d : dict) (k : pykey) :
  key_in k l = false -> dict_find (pop_all l d) k = dict_find d k.
Proof.
  unfold key_in.
  revert d; induction l as [|a l IH]; simpl; auto; intros d.
  rewrite orb_false_iff; intros [E H].
  rewrite IH by assumption. apply dict_find_pop_other.
  rewrite key_eqb_sym; exact E.
Qed.

Section Failures.
Variable e : env.
Variable payload : pystr.

Lemma failures_sub (ts : dict) (n : nat) (k : pykey) :
  key_in k (failures e payload n ts) = true -> dict_mem ts k = true.
Proof.
  unfold key_in.
  revert n; induction ts as [|[a x] ts IH]; simpl; auto; intros n.
  destruct (ws_send_ok e n x payload); simpl.
  - intros H; rewrite (IH _ H); apply orb_true_r.
  - rewrite (key_eqb_sym a k), !orb_true_iff; intros [H|H]; eauto.
Qed.

Lemma attempts_nth (ts : dict) (n i : nat) (k : pykey) (c : conn) :
  nth_error ts i = Some (k, c) ->
  nth_error (attempts e payload n ts) i
  = Some {| send_conn := c; send_payload := payload;
            send_ok := ws_send_ok e (n + i) c payload |}.
Proof.
  revert n i; induction ts as [|[a x] ts IH]; intros n [|i]; simpl;
    try discriminate.
  - intros H; inversion H; subst; rewrite Nat.add_0_r; reflexivity.
  - intros H; rewrite (IH (S n) i H).
    replace (n + S i)%nat with (S n + i)%nat by lia; reflexivity.
Qed.

Lemma attempts_length (ts : dict) (n : nat) :
  length (attempts e payload n ts) = length ts.
Proof.
  revert n; induction ts as [|[a x] ts IH]; simpl; auto.
Qed.

Lemma attempts_map (ts : dict) (n : nat) :
  map (fun r => (send_conn r, send_payload r)) (attempts e payload n ts)
  = map (fun kc => (snd kc, payload)) ts.
Proof.
  revert n; induction ts as [|[a x] ts IH]; simpl; intros n; auto.
  rewrite IH; reflexivity.
Qed.

Lemma attempts_payload (ts : dict) (n : nat) (r : send_record) :
  In r (attempts e payload n ts) -> send_payload r = payload.
Proof.
  revert n; induction ts as [|[a x] ts IH]; simpl; intros n; [tauto|].
  intros [<-|H]; eauto.
Qed.

(** The key of the [i]-th item is recorded exactly when its send raised. *)
Lemma failures_nth (ts : dict) (n i : nat) (k : pykey) (c : conn) :
  dict_wf ts = true ->
  nth_error ts i = Some (k, c) ->
  key_in k (failures e payload n ts)
  = negb (ws_send_ok e (n + i) c payload).
Proof.
  revert n i; induction ts as [|[a x] ts IH]; intros n [|i]; simpl;
    try discriminate.
  - rewrite andb_true_iff, negb_true_iff; intros [Ha Hd] H.
    inversion H; subst. rewrite Nat.add_0_r.
    destruct (ws_send_ok e n c payload); simpl.
    + destruct (key_in k (failures e payload (S n) ts)) eqn:E; auto.
      apply failures_sub in E; congruence.
    + unfold key_in; simpl; rewrite key_eqb_refl; reflexivity.
  - rewrite andb_true_iff, negb_true_iff; intros [Ha Hd] H.
    replace (n + S i)%nat with (S n + i)%nat by lia.
    rewrite <- (IH (S n) i Hd H).
    destruct (ws_send_ok e n x payload); auto.
    unfold key_in; simpl.
    destruct (key_eqb k a) eqn:E; auto.
    apply nth_error_In, dict_mem_In in H.
    rewrite (dict_mem_congr ts _ _ E) in H; congruence.
Qed.
End Failures.

(** ** The invariant of the registry *)

Lemma api_request_connections e method endpoint data w :
  active_connections (snd (api_request e method endpoint data w))
  = active_connections w.
Proof.
  unfold api_request.
  destruct (YANDEX_CLOUD_API e); [reflexivity|].
  destruct (http e _ _); reflexivity.
Qed.

Lemma api_request_sends e method endpoint data w :
  sends (snd (api_request e method endpoint data w)) = sends w.
Proof.
  unfold api_request.
  destruct (YANDEX_CLOUD_API e); [reflexivity|].
  destruct (http e _ _); reflexivity.
Qed.

Lemma registry_inv_pop (d : dict) (k : pykey) :
  registry_inv d = true -> registry_inv (dict_pop d k) = true.
Proof.
  unfold registry_inv; rewrite !andb_true_iff; intros [H1 H2].
  auto using dict_wf_pop, keys_truthy_pop.
Qed.

Lemma registry_inv_set (d : dict) (k : pykey) (c : conn) :
  key_truthy k = true ->
  registry_inv d = true -> registry_inv (dict_set d k c) = true.
Proof.
  unfold registry_inv; rewrite !andb_true_iff; intros Hk [H1 H2].
  auto using dict_wf_set, keys_truthy_set.
Qed.

Lemma announce_inv e build user_id profile w w' :
  announce e build user_id profile w = Ok w' ->
  registry_inv (active_connections w) = true ->
  registry_inv (active_connections w') = true.
Proof.
  unfold announce.
  destruct (truthy profile); [|intros H; inversion H; subst; auto].
  destruct (py_get profile _ _); [|discriminate].
  intros H; inversion H; subst; apply broadcast_inv.
Qed.

Lemma websocket_finally_inv e user_id w :
  registry_inv (active_connections w) = true ->
  registry_inv (active_connections (snd (websocket_finally e user_id w)))
  = true.
Proof.
  intros I; unfold websocket_finally.
  destruct (truthy user_id); [|exact I].
  destruct (to_key user_id) as [k|]; [|exact I].
  destruct (dict_mem (active_connections w) k); [|exact I].
  set (w1 := set_connections _ w).
  assert (I1 : registry_inv (active_connections w1) = true)
    by (apply registry_inv_pop, I).
  pose proof (api_request_connections e GET (lit "user/profile")
                (profile_params user_id) w1) as A.
  destruct (api_request e GET _ _ w1) as [profile w2]; cbn [snd] in A.
  rewrite <- A in I1.
  destruct (announce e user_left user_id profile w2) as [w3|] eqn:N;
    simpl; auto.
  apply broadcast_inv. eapply announce_inv; eauto.
Qed.

Lemma websocket_open_inv e init_data ws w :
  registry_inv (active_connections w) = true ->
  registry_inv (active_connections (snd (websocket_open e init_data ws w)))
  = true.
Proof.
  intros I; unfold websocket_open.
  destruct (extract_user_id e (PStr init_data)) as [user_id|]; [|exact I].
  destruct (truthy user_id) eqn:T; cbn [negb].
  2:{ unfold websocket_finally; rewrite T; exact I. }
  unfold dict_setitem.
  destruct (to_key user_id) as [k|] eqn:K.
  2:{ unfold websocket_finally; rewrite T, K; exact I. }
  set (w1 := set_connections _ w).
  assert (I1 : registry_inv (active_connections w1) = true).
  { apply registry_inv_set; auto.
    unfold key_truthy; rewrite (of_key_to_key _ _ K); exact T. }
  pose proof (api_request_connections e GET (lit "user/profile")
                (profile_params user_id) w1) as A.
  destruct (api_request e GET _ _ w1) as [profile w2]; cbn [snd] in A.
  rewrite <- A in I1.
  destruct (announce e user_joined user_id profile w2) as [w3|] eqn:N.
  - simpl. apply broadcast_inv. eapply announce_inv; eauto.
  - pose proof (websocket_finally_inv e user_id w2 I1) as F.
    destruct (websocket_finally e user_id w2); exact F.
Qed.

Lemma send_message_inv e data w :
  registry_inv (active_connections w) = true ->
  registry_inv (active_connections (snd (send_message e data w))) = true.
Proof.
  intros I; unfold send_message.
  destruct (py_get data _ _) as [init_data|]; [|exact I].
  destruct (extract_user_id e init_data) as [user_id|]; [|exact I].
  destruct (py_get data (lit "text") _) as [[| | |raw| |]|]; try exact I.
  destruct (py_get data (lit "reply_to_id") _) as [reply|]; [|exact I].
  destruct (_ || _); [exact I|].
  match goal with |- context [api_request e ?m ?p ?d w] =>
    pose proof (api_request_connections e m p d w) as A;
    destruct (api_request e m p d w) as [message w1] end.
  cbn [snd] in A; rewrite <- A in I.
  destruct (negb (truthy message)); simpl; auto using broadcast_inv.
Qed.

Lemma get_messages_connections e args w :
  active_connections (snd (get_messages e args w)) = active_connections w.
Proof.
  unfold get_messages.
  destruct (match args_get args (lit "limit") with
            | Some s => py_int e s | None => Ok 30 end) as [limit|];
    [|reflexivity].
  destruct (match args_get args (lit "before_id") with
            | Some (c :: s) => _ | _ => _ end) as [params|]; [|reflexivity].
  match goal with |- context [api_request e ?m ?p ?d w] =>
    pose proof (api_request_connections e m p d w) as A;
    destruct (api_request e m p d w) as [result w1] end.
  destruct (truthy result); exact A.
Qed.

(** In every state the application can reach, the registry has one item per
    key and every key is truthy. *)
Lemma reachable_inv (s : system) :
  reachable s -> registry_inv (active_connections (state s)) = true.
Proof.
  induction 1 as [|e init_data ws s st w R IH E|e n u s x w R IH N E
                  |e data s r w R IH E|e args s r w R IH E]; cbn [state].
  - reflexivity.
  - change w with (snd (st, w)); rewrite <- E.
    apply websocket_open_inv, IH.
  - change w with (snd (x, w)); rewrite <- E.
    apply websocket_finally_inv, IH.
  - change w with (snd (r, w)); rewrite <- E.
    apply send_message_inv, IH.
  - change w with (snd (r, w)); rewrite <- E.
    rewrite get_messages_connections; exact IH.
Qed.

(** ** Broadcast fanout *)

Lemma targets_truthy (U : pyval) (d : dict) :
  keys_truthy d = true \/ truthy U = true ->
  targets U d = filter (fun kc => negb (py_eqb (fst kc) U)) d.
Proof.
  unfold targets, keys_truthy; intros H.
  apply filter_ext_in; intros [k c] I; cbn [fst].
  destruct H as [H|H].
  - rewrite forallb_forall in H.
    rewrite excluded_truthy_key; [reflexivity | exact (H _ I)].
  - unfold excluded; rewrite H; reflexivity.
Qed.

Lemma targets_unset (d : dict) : targets PNone d = d.
Proof.
  unfold targets; induction d as [|[k c] d IH]; [reflexivity|].
  cbn [filter fst]. change (excluded PNone k) with false.
  cbn [negb]. f_equal; exact IH.
Qed.

(** C2. [broadcast_message(message, exclude_user=U)] calls [ws.send] with
    [json.dumps(message)] once on each item of the registry whose key is not
    equal to [U], in the order of the registry, and on no other item; the
    send is recorded as delivered when the transport accepts it.  With
    [exclude_user] unset, every item of the registry is sent to, the
    sender's included.  The guard of the loop tests [exclude_user] for truth
    before comparing, so the first part is stated for a truthy [U] and any
    registry, and for any [U] and a registry whose keys are all truthy,
    which is every registry the application can reach ([reachable_inv]). *)
Theorem broadcast_reaches_all_but_excluded
    (e : env) (message U : pyval) (w : world) :
  keys_truthy (active_connections w) = true \/ truthy U = true ->
  new_sends w (broadcast_message e message U w)
  = attempts e (json_dumps e message) (length (sends w))
      (filter (fun kc => negb (py_eqb (fst kc) U)) (active_connections w))
  /\ map (fun r => (send_conn r, send_payload r))
       (new_sends w (broadcast_message e message U w))
     = map (fun kc => (snd kc, json_dumps e message))
         (filter (fun kc => negb (py_eqb (fst kc) U)) (active_connections w))
  /\ map (fun r => (send_conn r, send_payload r))
       (new_sends w (broadcast_message e message PNone w))
     = map (fun kc => (snd kc, json_dumps e message)) (active_connections w).
Proof.
  intros H. rewrite !broadcast_new_sends, targets_unset, targets_truthy by auto.
  rewrite !attempts_map. auto.
Qed.

Lemma broadcast_reaches_all_but_excluded_witness :
  map (fun r => (send_conn r, send_payload r))
    (new_sends room
       (broadcast_message sample (online_count (PInt 3)) (PInt 2) room))
  = [(1%nat, sample_dumps (online_count (PInt 3)));
     (3%nat, sample_dumps (online_count (PInt 3)))].
Proof.
  destruct (broadcast_reaches_all_but_excluded sample (online_count (PInt 3))
              (PInt 2) room (or_introl eq_refl)) as (_ & H & _).
  rewrite H. reflexivity.
Defined.

(** C3. When [ws.send] raises on an item of the registry during a broadcast,
    the key of that item is not in the registry once [broadcast_message] has
    returned, every item that is not excluded has had its own [ws.send] call
    with the serialized event, and every item whose send returned is still
    registered under its key.  [broadcast_message] is a total function: it
    returns for every registry and every behaviour of the transports. *)
Theorem broadcast_isolates_failures
    (e : env) (message U : pyval) (w : world)
    (i : nat) (k : pykey) (c : conn) :
  dict_wf (active_connections w) = true ->
  nth_error (targets U (active_connections w)) i = Some (k, c) ->
  ws_send_ok e (length (sends w) + i) c (json_dumps e message) = false ->
  dict_mem (active_connections (broadcast_message e message U w)) k = false
  /\ forall j k' c',
       nth_error (targets U (active_connections w)) j = Some (k', c') ->
       nth_error (new_sends w (broadcast_message e message U w)) j
       = Some {| send_conn := c';
                 send_payload := json_dumps e message;
                 send_ok := ws_send_ok e (length (sends w) + j) c'
                              (json_dumps e message) |}
       /\ (ws_send_ok e (length (sends w) + j) c' (json_dumps e message)
           = true ->
           dict_find (active_connections (broadcast_message e message U w)) k'
           = Some c').
Proof.
  intros W T F.
  assert (WT : dict_wf (targets U (active_connections w)) = true)
    by (apply dict_wf_filter, W).
  split.
  - rewrite broadcast_message_spec; cbn [active_connections].
    apply pop_all_removes; auto.
    rewrite (failures_nth e _ _ _ _ _ _ WT T), F; reflexivity.
  - intros j k' c' T'. split.
    + rewrite broadcast_new_sends. eapply attempts_nth, T'.
    + intros S. rewrite broadcast_message_spec; cbn [active_connections].
      rewrite pop_all_keeps.
      * apply dict_find_In; auto.
        apply nth_error_In in T'. unfold targets in T'.
        apply filter_In in T'. tauto.
      * rewrite (failures_nth e _ _ _ _ _ _ WT T'), S; reflexivity.
Qed.

Lemma broadcast_isolates_failures_witness :
  dict_mem
    (active_connections
       (broadcast_message sample (online_count (PInt 3)) PNone room))
    (KInt 2) = false
  /\ dict_find
       (active_connections
          (broadcast_message sample (online_count (PInt 3)) PNone room))
       (KInt 3) = Some 3%nat.
Proof.
  destruct (broadcast_isolates_failures sample (online_count (PInt 3)) PNone
              room 1 (KInt 2) 2%nat eq_refl eq_refl eq_refl) as [A B].
  split; [exact A|].
  destruct (B 2%nat (KInt 3) 3%nat eq_refl) as [_ C].
  apply C; reflexivity.
Defined.

(** C7, as the code has it.  [json.dumps(message)] is evaluated inside the
    loop, once for each [ws.send] call, and not once for the invocation;
    every send of one invocation carries the same string,
    [json.dumps(message)]. *)
Theorem broadcast_serializes_per_send
    (e : env) (message U : pyval) (w : world) :
  dumps_calls (broadcast_message e message U w)
  = (dumps_calls w
     + length (new_sends w (broadcast_message e message U w)))%nat
  /\ forall r,
       In r (new_sends w (broadcast_message e message U w)) ->
       send_payload r = json_dumps e message.
Proof.
  rewrite broadcast_new_sends, attempts_length. split.
  - rewrite broadcast_message_spec; reflexivity.
  - intros r; apply attempts_payload.
Qed.

(** C7, as the specification words it, fails: a broadcast to the three
    connections of [room] serializes the event three times. *)
Lemma broadcast_serializes_once_counterexample :
  dumps_calls (broadcast_message sample (online_count (PInt 3)) PNone room)
  = (dumps_calls room + 3)%nat
  /\ dumps_calls (broadcast_message sample (online_count (PInt 3)) PNone room)
     <> (dumps_calls room + 1)%nat.
Proof. split; [reflexivity | discriminate]. Qed.

(** ** Register and unregister *)

Lemma count_key_absent (d : dict) (k : pykey) :
  dict_mem d k = false -> count_key d k = 0%nat.
Proof.
  unfold count_key; induction d as [|[a x] d IH]; simpl; auto.
  rewrite orb_false_iff; intros [-> H]; auto.
Qed.

Lemma count_key_wf (d : dict) (k : pykey) :
  dict_wf d = true -> (count_key d k <= 1)%nat.
Proof.
  induction d as [|[a x] d IH]; [intros _; unfold count_key; simpl; lia|].
  cbn [dict_wf]; rewrite andb_true_iff, negb_true_iff; intros [Ha Hd].
  specialize (IH Hd). unfold count_key in *; cbn [filter fst].
  destruct (key_eqb a k) eqn:E; [|exact IH].
  rewrite (dict_mem_congr d _ _ E) in Ha.
  apply count_key_absent in Ha; unfold count_key in Ha.
  cbn [length]; rewrite Ha; lia.
Qed.

Lemma count_key_set (d : dict) (k : pykey) (c : conn) :
  dict_wf d = true -> count_key (dict_set d k c) k = 1%nat.
Proof.
  induction d as [|[a x] d IH].
  - intros _; unfold count_key; simpl; rewrite key_eqb_refl; reflexivity.
  - cbn [dict_wf dict_set]; rewrite andb_true_iff, negb_true_iff.
    intros [Ha Hd]. unfold count_key in *.
    destruct (key_eqb a k) eqn:E; cbn [filter fst]; rewrite E.
    + rewrite (dict_mem_congr d _ _ E) in Ha.
      apply count_key_absent in Ha; unfold count_key in Ha.
      cbn [length]; rewrite Ha; reflexivity.
    + apply IH, Hd.
Qed.

Lemma dict_set_twice (d : dict) (k : pykey) (c1 c2 : conn) :
  dict_set (dict_set d k c1) k c2 = dict_set d k c2.
Proof.
  induction d as [|[a x] d IH]; simpl.
  - rewrite key_eqb_refl; reflexivity.
  - destruct (key_eqb a k) eqn:E; simpl; rewrite E; congruence.
Qed.

(** C4. In every state the application can reach the registry has at most
    one item under any key.  [active_connections[user_id] = ws] raises for
    no hashable [user_id]; it leaves the new connection under that key and
    exactly one item for it, and the registry the same size when the key was
    there and one item larger when it was not.  Registering a key twice in
    succession is registering it with the later connection. *)
Theorem registry_one_entry_per_user :
  (forall s k, reachable s ->
     (count_key (active_connections (state s)) k <= 1)%nat)
  /\ (forall d k c, dict_setitem d (of_key k) c = Ok (dict_set d k c))
  /\ (forall d k c,
        dict_wf d = true ->
        dict_wf (dict_set d k c) = true
        /\ dict_find (dict_set d k c) k = Some c
        /\ count_key (dict_set d k c) k = 1%nat
        /\ length (dict_set d k c)
           = (if dict_mem d k then length d else S (length d)))
  /\ (forall d k c1 c2,
        dict_wf d = true ->
        dict_set (dict_set d k c1) k c2 = dict_set d k c2
        /\ count_key (dict_set (dict_set d k c1) k c2) k = 1%nat
        /\ dict_find (dict_set (dict_set d k c1) k c2) k = Some c2).
Proof.
  split; [|split; [|split]].
  - intros s k H. apply count_key_wf. apply reachable_inv in H.
    unfold registry_inv in H; apply andb_true_iff in H; tauto.
  - intros d k c. unfold dict_setitem; rewrite to_key_of_key; reflexivity.
  - intros d k c W.
    auto using dict_wf_set, dict_find_set_same, count_key_set,
      dict_set_length.
  - intros d k c1 c2 W. rewrite dict_set_twice.
    auto using dict_find_set_same, count_key_set.
Qed.

Lemma registry_one_entry_per_user_witness :
  dict_set (dict_set (active_connections room) (KInt 2) 8%nat) (KInt 2) 9%nat
  = [(KInt 1, 1%nat); (KInt 2, 9%nat); (KInt 3, 3%nat)]
  /\ count_key
       (dict_set (dict_set (active_connections room) (KInt 2) 8%nat)
          (KInt 2) 9%nat) (KInt 2) = 1%nat.
Proof.
  destruct registry_one_entry_per_user as (_ & _ & _ & H).
  destruct (H (active_connections room) (KInt 2) 8%nat 9%nat eq_refl)
    as (A & B & _).
  split; [rewrite A; reflexivity | exact B].
Defined.

(** C8. When the registry has no item under a key, removing that key changes
    nothing and raises nothing: [active_connections.pop(user_id, None)], as
    the second loop of [broadcast_message] calls it, returns the registry as
    it was, and the [finally] block of the websocket handler, guarded by
    [user_id in active_connections], returns with the world as it was. *)
Theorem unregister_absent_is_noop (e : env) (k : pykey) (w : world) :
  dict_mem (active_connections w) k = false ->
  dict_pop (active_connections w) k = active_connections w
  /\ length (dict_pop (active_connections w) k)
     = length (active_connections w)
  /\ websocket_close e (of_key k) w = (Returned, w).
Proof.
  intros H. rewrite (dict_pop_absent _ _ H). repeat split.
  unfold websocket_close, websocket_finally.
  rewrite to_key_of_key, H. destruct (truthy (of_key k)); reflexivity.
Qed.

Lemma unregister_absent_is_noop_witness :
  dict_pop (active_connections room) (KInt 7) = active_connections room
  /\ websocket_close sample (PInt 7) room = (Returned, room).
Proof.
  destruct (unregister_absent_is_noop sample (KInt 7) room eq_refl)
    as (A & _ & B).
  split; [exact A | exact B].
Defined.

(** ** Identity extraction and the handlers that use it *)

Lemma form_get_absent parsed k default :
  has_field parsed k = false -> form_get parsed k default = default.
Proof.
  unfold has_field; induction parsed as [|[a vs] parsed IH]; simpl; auto.
  rewrite orb_false_iff; intros [-> H]; auto.
Qed.

Lemma extract_raise_iff (e : env) (init_data : pyval) :
  extract_user_id e init_data = Raise <->
  parse_qs e init_data = Raise
  \/ (exists parsed,
        parse_qs e init_data = Ok parsed
        /\ form_get parsed (lit "user") [lit "{}"] = [])
  \/ (exists parsed first rest,
        parse_qs e init_data = Ok parsed
        /\ form_get parsed (lit "user") [lit "{}"] = first :: rest
        /\ json_loads e first = Raise)
  \/ (exists parsed first rest v,
        parse_qs e init_data = Ok parsed
        /\ form_get parsed (lit "user") [lit "{}"] = first :: rest
        /\ json_loads e first = Ok v
        /\ is_dict v = false).
Proof.
  unfold extract_user_id. split.
  - destruct (parse_qs e init_data) as [parsed|]; [|auto].
    destruct (form_get parsed _ _) as [|first rest] eqn:F.
    { intros _; right; left; eauto. }
    destruct (json_loads e first) as [v|] eqn:J.
    + intros G; right; right; right. exists parsed, first, rest, v.
      repeat split; auto. destruct v; simpl in *; auto; discriminate.
    + intros _; right; right; left. exists parsed, first, rest; auto.
  - intros [H|[(parsed & P & F)|[(parsed & first & rest & P & F & J)
                                |(parsed & first & rest & v & P & F & J & D)]]].
    + rewrite H; reflexivity.
    + rewrite P, F; reflexivity.
    + rewrite P, F, J; reflexivity.
    + rewrite P, F, J. destruct v; simpl in *; auto; discriminate.
Qed.

Lemma extract_absent_user (e : env) (init_data : pyval) parsed :
  parse_qs e init_data = Ok parsed ->
  has_field parsed (lit "user") = false ->
  json_loads e (lit "{}") = Ok (PDict []) ->
  extract_user_id e init_data = Ok PNone.
Proof.
  intros P A J. unfold extract_user_id.
  rewrite P, (form_get_absent _ _ _ A), J. reflexivity.
Qed.

Lemma websocket_open_raise (e : env) init_data ws w :
  extract_user_id e (PStr init_data) = Raise ->
  websocket_open e init_data ws w
  = (Closed Returned, log_close ws (lit "Invalid init_data") w).
Proof. unfold websocket_open; intros ->; reflexivity. Qed.

Lemma websocket_open_falsy (e : env) init_data ws w user_id :
  extract_user_id e (PStr init_data) = Ok user_id ->
  truthy user_id = false ->
  websocket_open e init_data ws w
  = (Closed Returned, log_close ws (lit "No user_id") w).
Proof.
  unfold websocket_open, websocket_finally; intros -> T; rewrite T.
  reflexivity.
Qed.

Lemma send_message_raise (e : env) d w :
  extract_user_id e (obj_get d (lit "init_data") (PStr [])) = Raise ->
  send_message e (PDict d) w
  = (Response 401 (error_body "Invalid init_data"), w).
Proof. unfold send_message; cbn [py_get]; intros ->; reflexivity. Qed.

(** C1, as the code has it.  Identity extraction fails exactly when
    [parse_qs] raises, when the first [user] value is not valid JSON, or when
    it is JSON but not an object (or [user] has no value at all); then
    [send_message] answers 401 and the websocket handler closes the
    connection with reason [Invalid init_data], and in both the registry,
    the log of store requests and the log of sends are as before.  A token
    without [user] field extracts [None], and whenever the extracted
    identifier is falsy the websocket handler closes the connection with
    reason [No user_id], again with nothing else changed.  Nothing is said
    of an identifier that is truthy and not an integer. *)
Theorem extraction_failure_is_rejected (e : env) (w : world) :
  (forall init_data,
     extract_user_id e init_data = Raise <->
     parse_qs e init_data = Raise
     \/ (exists parsed,
           parse_qs e init_data = Ok parsed
           /\ form_get parsed (lit "user") [lit "{}"] = [])
     \/ (exists parsed first rest,
           parse_qs e init_data = Ok parsed
           /\ form_get parsed (lit "user") [lit "{}"] = first :: rest
           /\ json_loads e first = Raise)
     \/ (exists parsed first rest v,
           parse_qs e init_data = Ok parsed
           /\ form_get parsed (lit "user") [lit "{}"] = first :: rest
           /\ json_loads e first = Ok v
           /\ is_dict v = false))
  /\ (forall d,
        extract_user_id e (obj_get d (lit "init_data") (PStr [])) = Raise ->
        send_message e (PDict d) w
        = (Response 401 (error_body "Invalid init_data"), w))
  /\ (forall init_data ws,
        extract_user_id e (PStr init_data) = Raise ->
        exists w',
          websocket_open e init_data ws w = (Closed Returned, w')
          /\ closes w' = closes w ++ [(ws, lit "Invalid init_data")]
          /\ active_connections w' = active_connections w
          /\ requests w' = requests w
          /\ sends w' = sends w)
  /\ (forall init_data parsed,
        parse_qs e init_data = Ok parsed ->
        has_field parsed (lit "user") = false ->
        json_loads e (lit "{}") = Ok (PDict []) ->
        extract_user_id e init_data = Ok PNone)
  /\ (forall init_data ws user_id,
        extract_user_id e (PStr init_data) = Ok user_id ->
        truthy user_id = false ->
        exists w',
          websocket_open e init_data ws w = (Closed Returned, w')
          /\ closes w' = closes w ++ [(ws, lit "No user_id")]
          /\ active_connections w' = active_connections w
          /\ requests w' = requests w
          /\ sends w' = sends w).
Proof.
  split; [intros; apply extract_raise_iff|].
  split; [intros; apply send_message_raise; assumption|].
  split; [|split].
  - intros init_data ws H. eexists; split.
    + apply websocket_open_raise, H.
    + repeat split.
  - intros; eapply extract_absent_user; eauto.
  - intros init_data ws user_id H T. eexists; split.
    + eapply websocket_open_falsy; eauto.
    + repeat split.
Qed.

Lemma extraction_failure_is_rejected_witness :
  send_message sample
    (PDict [(lit "init_data", PStr (lit "user=oops")); (lit "text", PStr (lit "hi"))])
    room
  = (Response 401 (error_body "Invalid init_data"), room).
Proof.
  destruct (extraction_failure_is_rejected sample room) as (_ & H & _).
  apply H. reflexivity.
Defined.

(** C1, as the specification words it, fails.  The token
    [user={"id":"abc"}] has an [id] that is not an integer; extraction
    returns the string, the websocket handler registers the connection
    under it, and [send_message] answers 200. *)
Lemma non_integer_id_counterexample :
  extract_user_id sample (PStr (token id_abc)) = Ok (PStr (lit "abc"))
  /\ fst (websocket_open sample (token id_abc) 1%nat initial)
     = Active (PStr (lit "abc"))
  /\ active_connections (snd (websocket_open sample (token id_abc) 1%nat
                                initial))
     = [(KStr (lit "abc"), 1%nat)]
  /\ active_connections (snd (websocket_open sample (token id_abc) 1%nat
                                initial))
     <> active_connections initial
  /\ exists body,
       fst (send_message sample
              (PDict [(lit "init_data", PStr (token id_abc));
                      (lit "text", PStr (lit "hi"))]) initial)
       = Response 200 body.
Proof.
  repeat split; try discriminate. eexists; reflexivity.
Qed.

(** The same for [send_message] and a token without [user] field:
    extraction returns [None], the message is stored under [user_id] [None]
    and broadcast. *)
Example send_message_without_user_field :
  let data := PDict [(lit "init_data", PStr (lit "auth_date=1"));
                     (lit "text", PStr (lit "hi"))] in
  extract_user_id sample (PStr (lit "auth_date=1")) = Ok PNone
  /\ new_requests room (snd (send_message sample data room))
     = [save_call PNone (lit "hi") PNone]
  /\ map send_conn (new_sends room (snd (send_message sample data room)))
     = [1%nat; 2%nat; 3%nat]
  /\ exists body, fst (send_message sample data room) = Response 200 body.
Proof. repeat split. eexists; reflexivity. Qed.

(** C10. When extraction succeeds with a falsy identifier, [0] among them,
    the websocket handler closes the connection with reason [No user_id]
    and returns: the registry is as before, no request is made to the
    store and nothing is sent. *)
Theorem websocket_rejects_falsy_id
    (e : env) (init_data : pystr) (ws : conn) (w : world) (user_id : pyval) :
  extract_user_id e (PStr init_data) = Ok user_id ->
  truthy user_id = false ->
  websocket_open e init_data ws w
  = (Closed Returned, log_close ws (lit "No user_id") w)
  /\ active_connections (snd (websocket_open e init_data ws w))
     = active_connections w
  /\ requests (snd (websocket_open e init_data ws w)) = requests w
  /\ sends (snd (websocket_open e init_data ws w)) = sends w
  /\ closes (snd (websocket_open e init_data ws w))
     = closes w ++ [(ws, lit "No user_id")].
Proof.
  intros H T. rewrite (websocket_open_falsy _ _ _ _ _ H T).
  repeat split.
Qed.

Lemma websocket_rejects_falsy_id_witness :
  extract_user_id sample (PStr (token (lit "0"))) = Ok (PInt 0)
  /\ websocket_open sample (token (lit "0")) 4%nat room
     = (Closed Returned, log_close 4%nat (lit "No user_id") room).
Proof.
  split; [reflexivity|].
  apply (websocket_rejects_falsy_id sample (token (lit "0")) 4%nat room
           (PInt 0)); reflexivity.
Defined.

(** ** Validation of the message text *)

Lemma api_request_requests e method endpoint data w :
  YANDEX_CLOUD_API e <> [] ->
  requests (snd (api_request e method endpoint data w))
  = requests w
    ++ [if str_eqb method GET then Get endpoint data else Post endpoint data].
Proof.
  unfold api_request; intros C.
  destruct (YANDEX_CLOUD_API e); [congruence|].
  destruct (http e _ _); reflexivity.
Qed.

Lemma new_requests_app (w w' : world) (l : list api_call) :
  requests w' = requests w ++ l -> new_requests w w' = l.
Proof.
  unfold new_requests; intros ->.
  rewrite skipn_app, skipn_all, Nat.sub_diag; reflexivity.
Qed.

(** The test [not text or len(text) > 1000]. *)
Lemma invalid_text_iff (text : pystr) :
  negb (truthy (PStr text)) || (len text >? 1000) = true
  <-> text = [] \/ len text > 1000.
Proof.
  rewrite orb_true_iff, negb_true_iff, Z.gtb_gt.
  destruct text; simpl; intuition (discriminate || auto).
Qed.

Lemma valid_text_iff (text : pystr) :
  negb (truthy (PStr text)) || (len text >? 1000) = false
  <-> 1 <= len text <= 1000.
Proof.
  rewrite orb_false_iff, negb_false_iff, Z.gtb_ltb, Z.ltb_ge.
  unfold len; destruct text; simpl length; simpl truthy;
    intuition (try discriminate; try lia).
Qed.

(** C5. Let a [send_message] request carry the text [raw], and [text] be
    [raw.strip()].  When [text] is empty or longer than 1000 characters the
    handler changes nothing, so it makes no request to the store and sends
    nothing, and, the identity token having been accepted, it answers 400.
    When [text] has between 1 and 1000 characters and the token has been
    accepted, the answer is not 400: the handler goes on to ask the store to
    save [text], and answers 500 or 200. *)
Theorem send_message_validates_text
    (e : env) (d : list (pystr * pyval)) (w : world) (raw : pystr) :
  obj_get d (lit "text") (PStr []) = PStr raw ->
  (strip raw = [] \/ len (strip raw) > 1000 ->
   snd (send_message e (PDict d) w) = w
   /\ forall user_id,
        extract_user_id e (obj_get d (lit "init_data") (PStr []))
        = Ok user_id ->
        send_message e (PDict d) w
        = (Response 400 (error_body "Invalid message"), w))
  /\ (1 <= len (strip raw) <= 1000 ->
      forall user_id,
        extract_user_id e (obj_get d (lit "init_data") (PStr []))
        = Ok user_id ->
        exists status body w',
          send_message e (PDict d) w = (Response status body, w')
          /\ (status = 500 \/ status = 200)
          /\ (YANDEX_CLOUD_API e <> [] ->
              new_requests w w'
              = [save_call user_id (strip raw)
                   (obj_get d (lit "reply_to_id") PNone)])).
Proof.
  intros T. split.
  - intros I. apply invalid_text_iff in I.
    unfold send_message; cbn [py_get]; rewrite T, I.
    destruct (extract_user_id e _) as [u|]; split; try reflexivity;
      intros user_id H; try discriminate; reflexivity.
  - intros V user_id X. apply valid_text_iff in V.
    unfold send_message; cbn [py_get]; rewrite X, T, V.
    match goal with |- context [api_request e ?m ?p ?a w] =>
      pose proof (api_request_requests e m p a w) as R;
      destruct (api_request e m p a w) as [message w1] end.
    cbn [snd] in R. change (str_eqb POST GET) with false in R.
    destruct (negb (truthy message)).
    + do 3 eexists; split; [reflexivity|]; split; [auto|].
      intros C; apply new_requests_app, R, C.
    + do 3 eexists; split; [reflexivity|]; split; [auto|].
      intros C; apply new_requests_app.
      rewrite broadcast_requests; apply R, C.
Qed.

Lemma send_message_validates_text_witness :
  send_message sample
    (PDict [(lit "init_data", PStr (token (lit "42")));
            (lit "text", PStr (lit "   "))]) room
  = (Response 400 (error_body "Invalid message"), room).
Proof.
  destruct (send_message_validates_text sample
              [(lit "init_data", PStr (token (lit "42")));
               (lit "text", PStr (lit "   "))] room (lit "   ") eq_refl)
    as [H _].
  destruct H as [_ H]; [left; reflexivity|].
  apply (H (PInt 42)); reflexivity.
Defined.

(** ** Listing messages *)

(** C9. [get_messages] does not answer every request: when [limit] is
    present and [int] raises on it, or [limit] is absent or an integer and
    [before_id] is present, not empty, and [int] raises on it, the exception
    leaves the handler, which has made no request to the store. *)
Theorem get_messages_raises_on_bad_integer
    (e : env) (args : list (pystr * pystr)) (w : world) (s : pystr) :
  (args_get args (lit "limit") = Some s /\ py_int e s = Raise)
  \/ ((args_get args (lit "limit") = None
       \/ exists l n, args_get args (lit "limit") = Some l
                      /\ py_int e l = Ok n)
      /\ args_get args (lit "before_id") = Some s
      /\ s <> []
      /\ py_int e s = Raise) ->
  get_messages e args w = (Unhandled, w).
Proof.
  unfold get_messages.
  intros [[L R]|(L & B & N & R)].
  - rewrite L, R; reflexivity.
  - assert (exists n, match args_get args (lit "limit") with
                      | Some s0 => py_int e s0
                      | None => Ok 30
                      end = Ok n) as [n ->].
    { destruct L as [->|(l & n & -> & ->)]; eauto. }
    rewrite B. destruct s as [|c s]; [congruence|].
    rewrite R; reflexivity.
Qed.

Lemma get_messages_raises_on_bad_integer_witness :
  get_messages sample [(lit "limit", lit "abc")] room = (Unhandled, room)
  /\ get_messages sample [(lit "limit", lit "10"); (lit "before_id", lit "abc")]
       room = (Unhandled, room).
Proof.
  split.
  - apply (get_messages_raises_on_bad_integer sample _ room (lit "abc")).
    left; split; reflexivity.
  - apply (get_messages_raises_on_bad_integer sample _ room (lit "abc")).
    right. split; [right; exists (lit "10"), 10; split; reflexivity|].
    split; [reflexivity|]. split; [discriminate | reflexivity].
Defined.

(** * Further properties of the code *)

(** ** The dictionary *)

Lemma dict_pop_set (d : dict) (k : pykey) (c : conn) :
  dict_pop (dict_set d k c) k = dict_pop d k.
Proof.
  induction d as [|[a x] d IH]; simpl.
  - rewrite key_eqb_refl; reflexivity.
  - destruct (key_eqb a k) eqn:E; simpl; rewrite E; congruence.
Qed.

Lemma dict_find_set_other (d : dict) (k k' : pykey) (c : conn) :
  key_eqb k k' = false -> dict_find (dict_set d k c) k' = dict_find d k'.
Proof.
  intros H; induction d as [|[a x] d IH]; simpl.
  - rewrite H; reflexivity.
  - destruct (key_eqb a k) eqn:E; simpl.
    + destruct (key_eqb a k') eqn:F; auto.
      rewrite key_eqb_sym in E.
      rewrite (key_eqb_trans _ _ _ E F) in H; discriminate.
    + rewrite IH; reflexivity.
Qed.

Lemma dict_find_congr (d : dict) (a b : pykey) :
  key_eqb a b = true -> dict_find d a = dict_find d b.
Proof.
  intros H; induction d as [|[k c] d IH]; simpl; auto.
  destruct (key_eqb k a) eqn:E, (key_eqb k b) eqn:F; auto.
  - rewrite (key_eqb_trans _ _ _ E H) in F; discriminate.
  - rewrite key_eqb_sym in H.
    rewrite (key_eqb_trans _ _ _ F H) in E; discriminate.
Qed.

(** X1. Registering a connection and unregistering its key undo each other:
    [d[k] = c] followed by [d.pop(k, None)] leaves what [d.pop(k, None)]
    alone leaves, which is [d] itself when [k] was not a key; and neither
    operation changes what is found under a key different from [k]. *)
Theorem register_unregister_roundtrip (d : dict) (k : pykey) (c : conn) :
  dict_pop (dict_set d k c) k = dict_pop d k
  /\ (dict_mem d k = false -> dict_pop (dict_set d k c) k = d)
  /\ (forall k', key_eqb k k' = false ->
        dict_find (dict_set d k c) k' = dict_find d k'
        /\ dict_find (dict_pop d k) k' = dict_find d k').
Proof.
  split; [apply dict_pop_set|]. split.
  - intros H; rewrite dict_pop_set; apply dict_pop_absent, H.
  - intros k' H; split.
    + apply dict_find_set_other, H.
    + apply dict_find_pop_other, H.
Qed.

(** ** What a broadcast leaves alone *)

Lemma dict_pop_incl (d : dict) (k : pykey) : incl (dict_pop d k) d.
Proof.
  induction d as [|[a x] d IH]; simpl; [apply incl_refl|].
  destruct (key_eqb a k).
  - apply incl_tl, incl_refl.
  - intros y [<-|H]; [left; reflexivity | right; apply IH, H].
Qed.

Lemma pop_all_incl (l : list pykey) (d : dict) : incl (pop_all l d) d.
Proof.
  revert d; induction l as [|k l IH]; simpl; intros d; [apply incl_refl|].
  eapply incl_tran; [apply IH | apply dict_pop_incl].
Qed.

Lemma attempts_In (e : env) (p : pystr) (ts : dict) (n : nat)
    (r : send_record) :
  In r (attempts e p n ts) -> exists k, In (k, send_conn r) ts.
Proof.
  revert n; induction ts as [|[a x] ts IH]; simpl; intros n; [tauto|].
  intros [<-|H].
  - exists a; left; reflexivity.
  - destruct (IH _ H) as [k I]; exists k; right; exact I.
Qed.

Lemma failures_nil (e : env) (p : pystr) (ts : dict) (n : nat) :
  (forall r, In r (attempts e p n ts) -> send_ok r = true) ->
  failures e p n ts = [].
Proof.
  revert n; induction ts as [|[a x] ts IH]; simpl; intros n H; auto.
  pose proof (H _ (or_introl eq_refl)) as S; cbn [send_ok] in S.
  rewrite S. apply IH; auto.
Qed.

Lemma broadcast_connections_incl (e : env) (message U : pyval) (w : world) :
  incl (active_connections (broadcast_message e message U w))
       (active_connections w).
Proof. rewrite broadcast_message_spec; apply pop_all_incl. Qed.

Lemma broadcast_mem_false (e : env) (message U : pyval) (w : world) k :
  dict_mem (active_connections w) k = false ->
  dict_mem (active_connections (broadcast_message e message U w)) k = false.
Proof. rewrite broadcast_message_spec; apply pop_all_mem_false. Qed.

(** X2. All that [broadcast_message] does is send and drop.  It calls no
    [ws.close] and makes no request to the store; what it sends goes to
    connections of the registry; the registry afterwards holds only items it
    held before, so it never grows; and when no send raised, the registry is
    as it was. *)
Theorem broadcast_only_sends_and_drops
    (e : env) (message U : pyval) (w : world) :
  closes (broadcast_message e message U w) = closes w
  /\ requests (broadcast_message e message U w) = requests w
  /\ sends (broadcast_message e message U w)
     = sends w ++ new_sends w (broadcast_message e message U w)
  /\ (forall r, In r (new_sends w (broadcast_message e message U w)) ->
        exists k, In (k, send_conn r) (active_connections w))
  /\ incl (active_connections (broadcast_message e message U w))
          (active_connections w)
  /\ (length (active_connections (broadcast_message e message U w))
      <= length (active_connections w))%nat
  /\ ((forall r, In r (new_sends w (broadcast_message e message U w)) ->
         send_ok r = true) ->
      active_connections (broadcast_message e message U w)
      = active_connections w).
Proof.
  rewrite broadcast_new_sends.
  split; [apply broadcast_closes|]. split; [apply broadcast_requests|].
  split; [rewrite broadcast_message_spec; reflexivity|].
  split.
  { intros r H. destruct (attempts_In _ _ _ _ _ H) as [k I].
    exists k. unfold targets in I; apply filter_In in I; tauto. }
  split; [apply broadcast_connections_incl|].
  split.
  - rewrite broadcast_message_spec; apply pop_all_length.
  - intros H. rewrite broadcast_message_spec; cbn [active_connections].
    rewrite (failures_nil _ _ _ _ H). reflexivity.
Qed.

Lemma dict_mem_filter (f : pykey * conn -> bool) (d : dict) (k : pykey) :
  dict_mem (filter f d) k = true ->
  exists k' c, In (k', c) d /\ f (k', c) = true /\ key_eqb k' k = true.
Proof.
  induction d as [|[a x] d IH]; simpl; [discriminate|].
  destruct (f (a, x)) eqn:F; simpl.
  - rewrite orb_true_iff; intros [E|H].
    + exists a, x; auto.
    + destruct (IH H) as (k' & c & I & G & E); exists k', c; auto.
  - intros H; destruct (IH H) as (k' & c & I & G & E); exists k', c; auto.
Qed.

(** X3. The user a broadcast excludes cannot be dropped by it: for a truthy
    [exclude_user], whatever the registry holds under that key before the
    broadcast it holds afterwards, whichever sends fail. *)
Theorem broadcast_keeps_excluded_user
    (e : env) (message U : pyval) (w : world) (k : pykey) :
  truthy U = true ->
  to_key U = Some k ->
  dict_find (active_connections (broadcast_message e message U w)) k
  = dict_find (active_connections w) k.
Proof.
  intros T K. rewrite broadcast_message_spec; cbn [active_connections].
  apply pop_all_keeps.
  destruct (key_in k (failures e (json_dumps e message) (length (sends w))
                        (targets U (active_connections w)))) eqn:F; auto.
  apply failures_sub in F. unfold targets in F.
  apply dict_mem_filter in F. destruct F as (k' & c & _ & G & E).
  cbn [fst] in G. unfold excluded, py_eqb in G. rewrite T, K, E in G.
  discriminate.
Qed.

Lemma broadcast_keeps_excluded_user_witness :
  dict_find
    (active_connections
       (broadcast_message sample (online_count (PInt 3)) (PInt 2) room))
    (KInt 2) = Some 2%nat.
Proof.
  rewrite (broadcast_keeps_excluded_user sample (online_count (PInt 3))
             (PInt 2) room (KInt 2) eq_refl eq_refl).
  reflexivity.
Defined.

Lemma failures_item (e : env) (p : pystr) (ts : dict) (n : nat) (k : pykey) :
  key_in k (failures e p n ts) = true ->
  exists i k' c,
    nth_error ts i = Some (k', c)
    /\ key_eqb k k' = true
    /\ ws_send_ok e (n + i) c p = false.
Proof.
  unfold key_in.
  revert n; induction ts as [|[a x] ts IH]; simpl; intros n; [discriminate|].
  destruct (ws_send_ok e n x p) eqn:S.
  - intros H. destruct (IH _ H) as (i & k' & c & N & E & F).
    exists (Datatypes.S i), k', c. repeat split; auto.
    replace (n + Datatypes.S i)%nat with (Datatypes.S n + i)%nat by lia.
    exact F.
  - simpl. rewrite orb_true_iff. intros [E|H].
    + exists 0%nat, a, x. rewrite Nat.add_0_r; auto.
    + destruct (IH _ H) as (i & k' & c & N & E & F).
      exists (Datatypes.S i), k', c. repeat split; auto.
      replace (n + Datatypes.S i)%nat with (Datatypes.S n + i)%nat by lia.
      exact F.
Qed.

Lemma broadcast_keeps_conn
    (e : env) (message U : pyval) (w : world) (k : pykey) (c : conn) :
  dict_wf (active_connections w) = true ->
  dict_find (active_connections w) k = Some c ->
  (forall n p, ws_send_ok e n c p = true) ->
  dict_find (active_connections (broadcast_message e message U w)) k = Some c.
Proof.
  intros W F R. rewrite broadcast_message_spec; cbn [active_connections].
  rewrite pop_all_keeps; auto.
  destruct (key_in k (failures e (json_dumps e message) (length (sends w))
                        (targets U (active_connections w)))) eqn:Q; auto.
  apply failures_item in Q. destruct Q as (i & k' & c' & N & E & S).
  apply nth_error_In in N. unfold targets in N. apply filter_In in N.
  destruct N as [N _].
  apply (dict_find_In _ _ _ W) in N.
  rewrite (dict_find_congr _ _ _ E), N in F.
  inversion F; subst. rewrite R in S; discriminate.
Qed.

(** X4. A connection whose transport accepts every send is never dropped
    by a broadcast, whatever happens to the other connections. *)
Theorem broadcast_keeps_reliable_connection
    (e : env) (message U : pyval) (w : world) (k : pykey) (c : conn) :
  dict_wf (active_connections w) = true ->
  dict_find (active_connections w) k = Some c ->
  (forall n p, ws_send_ok e n c p = true) ->
  dict_find (active_connections (broadcast_message e message U w)) k = Some c.
Proof. apply broadcast_keeps_conn. Qed.

Lemma broadcast_keeps_reliable_connection_witness :
  dict_find
    (active_connections
       (broadcast_message sample (online_count (PInt 3)) PNone room))
    (KInt 1) = Some 1%nat.
Proof.
  apply (broadcast_keeps_reliable_connection sample (online_count (PInt 3))
           PNone room (KInt 1) 1%nat eq_refl eq_refl).
  intros n p; reflexivity.
Defined.

(** ** Identity extraction, when it succeeds *)

(** X5. Identity extraction returns [v] exactly when [parse_qs] returns,
    the first value of the [user] field (or the default payload, the empty
    object, when the field is absent) is the JSON text of an object, and [v]
    is what that object holds under [id], [None] when it holds nothing
    there.  Further values of [user] and other fields are not consulted. *)
Theorem extract_returns_payload_id (e : env) (init_data v : pyval) :
  extract_user_id e init_data = Ok v <->
  exists parsed first rest d,
    parse_qs e init_data = Ok parsed
    /\ form_get parsed (lit "user") [lit "{}"] = first :: rest
    /\ json_loads e first = Ok (PDict d)
    /\ v = obj_get d (lit "id") PNone.
Proof.
  unfold extract_user_id. split.
  - destruct (parse_qs e init_data) as [parsed|]; [|discriminate].
    destruct (form_get parsed _ _) as [|first rest] eqn:F; [discriminate|].
    destruct (json_loads e first) as [[| | | | |d]|] eqn:J; try discriminate.
    cbn [py_get]. intros H; inversion H; subst.
    exists parsed, first, rest, d; auto.
  - intros (parsed & first & rest & d & P & F & J & ->).
    rewrite P, F, J; reflexivity.
Qed.

(** ** [api_request] and the routes that only read *)

(** X6. [api_request] leaves the registry and the logs of sends and closes
    alone.  With [YANDEX_CLOUD_API] empty it returns [None] and makes no
    request.  Otherwise it makes exactly one request, a GET when the method
    is the string [GET] and a POST for any other method, and returns the
    JSON of the response, or [None] when the HTTP client raises. *)
Theorem api_request_contract
    (e : env) (method endpoint : pystr) (data : pyval) (w : world) :
  active_connections (snd (api_request e method endpoint data w))
  = active_connections w
  /\ sends (snd (api_request e method endpoint data w)) = sends w
  /\ closes (snd (api_request e method endpoint data w)) = closes w
  /\ (YANDEX_CLOUD_API e = [] ->
      api_request e method endpoint data w = (PNone, w))
  /\ (YANDEX_CLOUD_API e <> [] ->
      forall call,
        call = (if str_eqb method GET then Get endpoint data
                else Post endpoint data) ->
        new_requests w (snd (api_request e method endpoint data w)) = [call]
        /\ fst (api_request e method endpoint data w)
           = answer_of (http e (length (requests w)) call)).
Proof.
  split; [apply api_request_connections|].
  split; [apply api_request_sends|].
  unfold api_request.
  destruct (YANDEX_CLOUD_API e) as [|c url].
  - repeat split; congruence.
  - split; [destruct (http e _ _); reflexivity|].
    split; [discriminate|]. intros _ call ->. split.
    + apply new_requests_app. destruct (http e _ _); reflexivity.
    + destruct (http e _ _); reflexivity.
Qed.

Lemma api_request_configured
    (e : env) (method endpoint : pystr) (data : pyval) (w : world) :
  YANDEX_CLOUD_API e <> [] ->
  api_request e method endpoint data w
  = (answer_of (http e (length (requests w))
                  (if str_eqb method GET then Get endpoint data
                   else Post endpoint data)),
     log_request (if str_eqb method GET then Get endpoint data
                  else Post endpoint data) w).
Proof.
  unfold api_request; intros C.
  destruct (YANDEX_CLOUD_API e); [congruence|].
  destruct (http e _ _); reflexivity.
Qed.

Lemma api_request_unconfigured
    (e : env) (method endpoint : pystr) (data : pyval) (w : world) :
  YANDEX_CLOUD_API e = [] ->
  api_request e method endpoint data w = (PNone, w).
Proof. unfold api_request; intros ->; reflexivity. Qed.

(** X7. [get_user_profile] answers 400, without asking the store, when the
    body has no [user_id] or a falsy one.  Otherwise it asks the store once
    for that profile and answers 200 with what the store returned when that
    is truthy, and 404 when the store is not configured, the HTTP client
    raised or the answer is falsy.  A body that is not an object makes the
    handler raise. *)
Theorem get_user_profile_answers
    (e : env) (d : list (pystr * pyval)) (w : world) :
  (truthy (obj_get d (lit "user_id") PNone) = false ->
   get_user_profile e (PDict d) w
   = (Response 400 (error_body "No user_id"), w))
  /\ (truthy (obj_get d (lit "user_id") PNone) = true ->
      YANDEX_CLOUD_API e = [] ->
      get_user_profile e (PDict d) w
      = (Response 404 (error_body "User not found"), w))
  /\ (truthy (obj_get d (lit "user_id") PNone) = true ->
      YANDEX_CLOUD_API e <> [] ->
      forall result,
        result = answer_of (http e (length (requests w))
                              (profile_call (obj_get d (lit "user_id") PNone)))
        ->
        get_user_profile e (PDict d) w
        = (if truthy result then Response 200 result
           else Response 404 (error_body "User not found"),
           log_request (profile_call (obj_get d (lit "user_id") PNone)) w))
  /\ (forall data, is_dict data = false ->
        get_user_profile e data w = (Unhandled, w)).
Proof.
  unfold get_user_profile; cbn [py_get].
  split; [intros ->; reflexivity|].
  split; [intros -> C; rewrite api_request_unconfigured by exact C;
          reflexivity|].
  split.
  - intros -> C result ->. rewrite api_request_configured by exact C.
    cbn [negb]. change (str_eqb GET GET) with true. cbv iota.
    fold (profile_call (obj_get d (lit "user_id") PNone)).
    destruct (truthy (answer_of _)); reflexivity.
  - intros [] H; try discriminate; reflexivity.
Qed.

(** X8. [get_messages] with arguments that [int] accepts always answers
    200, and never touches the registry.  It asks the store once for
    [messages], with [limit] 30 when the parameter is absent and without
    [before_id] when that parameter is absent or empty, and answers what the
    store returned when that is truthy and the empty page otherwise. *)
Theorem get_messages_answers
    (e : env) (args : list (pystr * pystr)) (w : world) (n : Z)
    (params : list (pystr * pyval)) :
  (args_get args (lit "limit") = None /\ n = 30
   \/ exists s, args_get args (lit "limit") = Some s /\ py_int e s = Ok n) ->
  ((args_get args (lit "before_id") = None
    \/ args_get args (lit "before_id") = Some [])
   /\ params = [(lit "limit", PInt n)]
   \/ exists s m,
        args_get args (lit "before_id") = Some s /\ s <> []
        /\ py_int e s = Ok m
        /\ params = [(lit "limit", PInt n); (lit "before_id", PInt m)]) ->
  exists result w',
    api_request e GET (lit "messages") (PDict params) w = (result, w')
    /\ get_messages e args w
       = (Response 200 (if truthy result then result else no_messages), w')
    /\ active_connections w' = active_connections w
    /\ sends w' = sends w.
Proof.
  intros L B.
  pose proof (api_request_connections e GET (lit "messages") (PDict params) w)
    as A.
  pose proof (api_request_sends e GET (lit "messages") (PDict params) w) as S.
  destruct (api_request e GET (lit "messages") (PDict params) w)
    as [result w'] eqn:R.
  exists result, w'. split; [reflexivity|]. split; [|split; assumption].
  unfold get_messages.
  assert (match args_get args (lit "limit") with
          | Some s => py_int e s
          | None => Ok 30
          end = Ok n) as ->.
  { destruct L as [[-> ->]|(s & -> & ->)]; reflexivity. }
  assert (match args_get args (lit "before_id") with
          | Some (c :: s) =>
              match py_int e (c :: s) with
              | Ok m => Ok [(lit "limit", PInt n); (lit "before_id", PInt m)]
              | Raise => Raise
              end
          | _ => Ok [(lit "limit", PInt n)]
          end = Ok params) as ->.
  { destruct B as [[[->| ->] ->]|(s & m & -> & N & I & ->)]; try reflexivity.
    destruct s; [congruence|]. rewrite I; reflexivity. }
  rewrite R. destruct (truthy result); reflexivity.
Qed.

Lemma get_messages_answers_witness :
  exists result w',
    api_request sample GET (lit "messages")
      (PDict [(lit "limit", PInt 30)]) room = (result, w')
    /\ get_messages sample [(lit "before_id", [])] room
       = (Response 200 (if truthy result then result else no_messages), w')
    /\ active_connections w' = active_connections room
    /\ sends w' = sends room.
Proof.
  apply (get_messages_answers sample [(lit "before_id", [])] room 30
           [(lit "limit", PInt 30)]).
  - left; split; reflexivity.
  - left; split; [right; reflexivity | reflexivity].
Defined.

(** ** [send_message] after validation *)

Lemma new_sends_same_log (w w1 w' : world) :
  sends w1 = sends w -> new_sends w w' = new_sends w1 w'.
Proof. unfold new_sends; intros ->; reflexivity. Qed.

Lemma send_message_valid
    (e : env) (d : list (pystr * pyval)) (w : world) (user_id : pyval)
    (raw : pystr) :
  extract_user_id e (obj_get d (lit "init_data") (PStr [])) = Ok user_id ->
  obj_get d (lit "text") (PStr []) = PStr raw ->
  1 <= len (strip raw) <= 1000 ->
  send_message e (PDict d) w
  = (let (message, w1) :=
       api_request e POST (lit "send_message")
         (PDict [(lit "user_id", user_id); (lit "text", PStr (strip raw));
                 (lit "reply_to_id", obj_get d (lit "reply_to_id") PNone)]) w
     in
     if negb (truthy message) then
       (Response 500 (error_body "Failed to save message"), w1)
     else
       (Response 200
          (PDict [(lit "success", PBool true); (lit "message", message)]),
        broadcast_message e (new_message message) PNone w1)).
Proof.
  intros X T V. apply valid_text_iff in V.
  unfold send_message; cbn [py_get]. rewrite X, T, V. reflexivity.
Qed.

(** X9. When the text is valid and the store gives nothing back, because it
    is not configured, the HTTP client raised, or the answer is falsy,
    [send_message] answers 500 and broadcasts nothing: no send, no
    serialization, and the registry as it was. *)
Theorem send_message_store_failure
    (e : env) (d : list (pystr * pyval)) (w : world) (user_id : pyval)
    (raw : pystr) :
  extract_user_id e (obj_get d (lit "init_data") (PStr [])) = Ok user_id ->
  obj_get d (lit "text") (PStr []) = PStr raw ->
  1 <= len (strip raw) <= 1000 ->
  YANDEX_CLOUD_API e = []
  \/ truthy (answer_of (http e (length (requests w))
                          (save_call user_id (strip raw)
                             (obj_get d (lit "reply_to_id") PNone)))) = false ->
  exists w',
    send_message e (PDict d) w
    = (Response 500 (error_body "Failed to save message"), w')
    /\ active_connections w' = active_connections w
    /\ sends w' = sends w
    /\ closes w' = closes w
    /\ dumps_calls w' = dumps_calls w.
Proof.
  intros X T V F. rewrite (send_message_valid _ _ _ _ _ X T V).
  destruct (YANDEX_CLOUD_API e) as [|c url] eqn:C.
  - rewrite api_request_unconfigured by exact C.
    eexists; split; [reflexivity | repeat split].
  - rewrite api_request_configured by congruence.
    change (str_eqb POST GET) with false. cbv iota.
    destruct F as [F|F]; [discriminate|].
    unfold save_call in F. rewrite F.
    eexists; split; [reflexivity | repeat split].
Qed.

Lemma send_message_store_failure_witness :
  exists w',
    send_message offline
      (PDict [(lit "init_data", PStr (token (lit "42")));
              (lit "text", PStr (lit "hi"))]) room
    = (Response 500 (error_body "Failed to save message"), w')
    /\ active_connections w' = active_connections room
    /\ sends w' = sends room
    /\ closes w' = closes room
    /\ dumps_calls w' = dumps_calls room.
Proof.
  apply (send_message_store_failure offline
           [(lit "init_data", PStr (token (lit "42")));
            (lit "text", PStr (lit "hi"))] room (PInt 42) (lit "hi")
           eq_refl eq_refl).
  - split; discriminate.
  - left; reflexivity.
Defined.

(** X10. When the text is valid and the store returns a truthy message,
    [send_message] answers 200 with that message, has asked the store once,
    and has called [ws.send] with the serialized [new_message] event once on
    every item of the registry, in order, the sender's own connection
    included. *)
Theorem send_message_fans_out
    (e : env) (d : list (pystr * pyval)) (w : world) (user_id : pyval)
    (raw : pystr) (message : pyval) :
  extract_user_id e (obj_get d (lit "init_data") (PStr [])) = Ok user_id ->
  obj_get d (lit "text") (PStr []) = PStr raw ->
  1 <= len (strip raw) <= 1000 ->
  YANDEX_CLOUD_API e <> [] ->
  http e (length (requests w))
    (save_call user_id (strip raw) (obj_get d (lit "reply_to_id") PNone))
  = Ok message ->
  truthy message = true ->
  exists w',
    send_message e (PDict d) w
    = (Response 200
         (PDict [(lit "success", PBool true); (lit "message", message)]), w')
    /\ new_requests w w'
       = [save_call user_id (strip raw)
            (obj_get d (lit "reply_to_id") PNone)]
    /\ map (fun r => (send_conn r, send_payload r)) (new_sends w w')
       = map (fun kc => (snd kc, json_dumps e (new_message message)))
           (active_connections w)
    /\ closes w' = closes w.
Proof.
  intros X T V C H M. rewrite (send_message_valid _ _ _ _ _ X T V).
  rewrite api_request_configured by exact C.
  change (str_eqb POST GET) with false. cbv iota.
  fold (save_call user_id (strip raw) (obj_get d (lit "reply_to_id") PNone)).
  rewrite H. cbn [answer_of]. rewrite M. cbn [negb].
  eexists; split; [reflexivity|]. split; [|split].
  - apply new_requests_app. rewrite broadcast_requests. reflexivity.
  - rewrite (new_sends_same_log w (log_request
               (save_call user_id (strip raw)
                  (obj_get d (lit "reply_to_id") PNone)) w)) by reflexivity.
    rewrite broadcast_new_sends, targets_unset, attempts_map. reflexivity.
  - rewrite broadcast_closes; reflexivity.
Qed.

Lemma send_message_fans_out_witness :
  exists w',
    send_message sample
      (PDict [(lit "init_data", PStr (token (lit "42")));
              (lit "text", PStr (lit " hi "))]) room
    = (Response 200
         (PDict [(lit "success", PBool true);
                 (lit "message", PDict [(lit "user_id", PInt 42);
                                        (lit "text", PStr (lit "hi"));
                                        (lit "reply_to_id", PNone)])]), w')
    /\ map (fun r => (send_conn r, send_payload r)) (new_sends room w')
       = map (fun kc => (snd kc,
                         sample_dumps
                           (new_message
                              (PDict [(lit "user_id", PInt 42);
                                      (lit "text", PStr (lit "hi"));
                                      (lit "reply_to_id", PNone)]))))
           [(KInt 1, 1%nat); (KInt 2, 2%nat); (KInt 3, 3%nat)].
Proof.
  destruct (send_message_fans_out sample
              [(lit "init_data", PStr (token (lit "42")));
               (lit "text", PStr (lit " hi "))] room (PInt 42) (lit " hi ")
              (PDict [(lit "user_id", PInt 42); (lit "text", PStr (lit "hi"));
                      (lit "reply_to_id", PNone)])
              eq_refl eq_refl)
    as (w' & E & _ & S & _).
  - split; discriminate.
  - discriminate.
  - reflexivity.
  - reflexivity.
  - exists w'. split; [exact E | exact S].
Defined.

(** X11. [send_message] does not answer a body that is not a JSON object,
    nor, once the token is accepted, a [text] that is not a string: the
    exception of [data.get] or of [.strip()] leaves the handler, which has
    asked the store nothing and sent nothing. *)
Theorem send_message_raises_on_bad_shape (e : env) (w : world) :
  (forall data, is_dict data = false ->
     send_message e data w = (Unhandled, w))
  /\ (forall d user_id,
        extract_user_id e (obj_get d (lit "init_data") (PStr []))
        = Ok user_id ->
        (forall s, obj_get d (lit "text") (PStr []) <> PStr s) ->
        send_message e (PDict d) w = (Unhandled, w)).
Proof.
  split.
  - intros [] H; try discriminate; reflexivity.
  - intros d user_id X N. unfold send_message; cbn [py_get]. rewrite X.
    destruct (obj_get d (lit "text") (PStr [])) eqn:T; try reflexivity.
    exfalso; eapply N; reflexivity.
Qed.

Lemma send_message_raises_on_bad_shape_witness :
  send_message sample
    (PDict [(lit "init_data", PStr (token (lit "42"))); (lit "text", PInt 5)])
    room = (Unhandled, room).
Proof.
  destruct (send_message_raises_on_bad_shape sample room) as [_ H].
  apply (H _ (PInt 42)); [reflexivity | discriminate].
Defined.

(** ** The websocket handler: leaving *)

Lemma announce_mem_false e build user_id profile w w' k :
  announce e build user_id profile w = Ok w' ->
  dict_mem (active_connections w) k = false ->
  dict_mem (active_connections w') k = false.
Proof.
  unfold announce.
  destruct (truthy profile); [|intros H; inversion H; subst; auto].
  destruct (py_get profile _ _); [|discriminate].
  intros H; inversion H; subst; apply broadcast_mem_false.
Qed.

Lemma announce_incl e build user_id profile w w' :
  announce e build user_id profile w = Ok w' ->
  incl (active_connections w') (active_connections w).
Proof.
  unfold announce.
  destruct (truthy profile);
    [|intros H; inversion H; subst; apply incl_refl].
  destruct (py_get profile _ _); [|discriminate].
  intros H; inversion H; subst; apply broadcast_connections_incl.
Qed.

Lemma websocket_finally_absent e user_id k w :
  to_key user_id = Some k ->
  dict_mem (active_connections w) k = false ->
  websocket_finally e user_id w = (Returned, w).
Proof.
  intros K H. unfold websocket_finally. rewrite K, H.
  destruct (truthy user_id); reflexivity.
Qed.

Lemma websocket_finally_incl e user_id w :
  incl (active_connections (snd (websocket_finally e user_id w)))
       (active_connections w).
Proof.
  unfold websocket_finally.
  destruct (truthy user_id); [|apply incl_refl].
  destruct (to_key user_id) as [k|]; [|apply incl_refl].
  destruct (dict_mem (active_connections w) k); [|apply incl_refl].
  set (w1 := set_connections _ w).
  pose proof (api_request_connections e GET (lit "user/profile")
                (profile_params user_id) w1) as A.
  destruct (api_request e GET _ _ w1) as [profile w2]; cbn [snd] in A.
  assert (I : incl (active_connections w2) (active_connections w))
    by (rewrite A; apply dict_pop_incl).
  destruct (announce e user_left user_id profile w2) as [w3|] eqn:N;
    cbn [snd]; auto.
  eapply incl_tran; [apply broadcast_connections_incl|].
  eapply incl_tran; [eapply announce_incl; eauto | exact I].
Qed.

Lemma websocket_finally_removes e user_id k w :
  truthy user_id = true ->
  to_key user_id = Some k ->
  dict_wf (active_connections w) = true ->
  dict_mem (active_connections (snd (websocket_finally e user_id w))) k
  = false.
Proof.
  intros T K W. unfold websocket_finally. rewrite T, K.
  destruct (dict_mem (active_connections w) k) eqn:M; [|exact M].
  set (w1 := set_connections _ w).
  pose proof (api_request_connections e GET (lit "user/profile")
                (profile_params user_id) w1) as A.
  destruct (api_request e GET _ _ w1) as [profile w2]; cbn [snd] in A.
  assert (I : dict_mem (active_connections w2) k = false)
    by (rewrite A; apply dict_mem_pop_same, W).
  destruct (announce e user_left user_id profile w2) as [w3|] eqn:N;
    cbn [snd]; auto.
  apply broadcast_mem_false. eapply announce_mem_false; eauto.
Qed.

(** X12. When the receive loop of a websocket handler ends, its [finally]
    block leaves no item under the handler's [user_id] in the registry,
    whatever the store answers, whichever sends fail, and also when an
    exception leaves the block; it adds nothing to the registry; and running
    it a second time changes nothing and raises nothing.  The block does not
    look at which connection is registered under the key. *)
Theorem websocket_close_removes_user
    (e : env) (user_id : pyval) (k : pykey) (w : world) :
  truthy user_id = true ->
  to_key user_id = Some k ->
  dict_wf (active_connections w) = true ->
  dict_mem (active_connections (snd (websocket_close e user_id w))) k = false
  /\ incl (active_connections (snd (websocket_close e user_id w)))
          (active_connections w)
  /\ forall e',
       websocket_close e' user_id (snd (websocket_close e user_id w))
       = (Returned, snd (websocket_close e user_id w)).
Proof.
  intros T K W. unfold websocket_close.
  pose proof (websocket_finally_removes e user_id k w T K W) as R.
  split; [exact R|]. split; [apply websocket_finally_incl|].
  intros e'. apply (websocket_finally_absent e' user_id k); assumption.
Qed.

Lemma websocket_close_removes_user_witness :
  dict_mem (active_connections (snd (websocket_close sample (PInt 3) room)))
    (KInt 3) = false
  /\ map fst (active_connections (snd (websocket_close sample (PInt 3) room)))
     = [KInt 1].
Proof.
  destruct (websocket_close_removes_user sample (PInt 3) (KInt 3) room
              eq_refl eq_refl eq_refl) as (H & _).
  split; [exact H | reflexivity].
Defined.

(** ** The websocket handler: joining *)

(** X13. An [id] that is truthy but unhashable, a JSON list or object,
    makes [active_connections[user_id] = ws] raise; the handler logs that,
    and the membership test of its [finally] block raises again, so the
    exception leaves the handler: nothing is registered, the connection is
    not closed by the handler, the store is not asked and nothing is
    sent. *)
Theorem websocket_open_unhashable_id
    (e : env) (init_data : pystr) (ws : conn) (w : world) (user_id : pyval) :
  extract_user_id e (PStr init_data) = Ok user_id ->
  truthy user_id = true ->
  to_key user_id = None ->
  websocket_open e init_data ws w = (Closed Propagated, w).
Proof.
  intros X T K. unfold websocket_open, dict_setitem, websocket_finally.
  rewrite X, T, K. reflexivity.
Qed.

Lemma websocket_open_unhashable_id_witness :
  websocket_open quirky (token (lit "[1]")) 4%nat room
  = (Closed Propagated, room).
Proof.
  apply (websocket_open_unhashable_id quirky (token (lit "[1]")) 4%nat room
           (PList [PInt 1])); reflexivity.
Defined.

Lemma websocket_open_registered e init_data ws w user_id k :
  extract_user_id e (PStr init_data) = Ok user_id ->
  truthy user_id = true ->
  to_key user_id = Some k ->
  websocket_open e init_data ws w
  = (let w1 := set_connections (dict_set (active_connections w) k ws) w in
     let (profile, w2) :=
       api_request e GET (lit "user/profile") (profile_params user_id) w1 in
     match announce e user_joined user_id profile w2 with
     | Raise => let (x, w3) := websocket_finally e user_id w2 in (Closed x, w3)
     | Ok w3 =>
         (Active user_id,
          broadcast_message e (online_count (online w3)) PNone w3)
     end).
Proof.
  intros X T K. unfold websocket_open, dict_setitem.
  rewrite X, T, K. reflexivity.
Qed.

(** X14. A websocket handler that extracted a truthy, hashable [user_id]
    and ended before its receive loop leaves no item under that [user_id]
    in the registry, not even one that an earlier connection of the same
    user had put there. *)
Theorem websocket_open_closed_unregisters
    (e : env) (init_data : pystr) (ws : conn) (w : world)
    (user_id : pyval) (k : pykey) (x : exit) :
  extract_user_id e (PStr init_data) = Ok user_id ->
  truthy user_id = true ->
  to_key user_id = Some k ->
  dict_wf (active_connections w) = true ->
  fst (websocket_open e init_data ws w) = Closed x ->
  dict_mem (active_connections (snd (websocket_open e init_data ws w))) k
  = false.
Proof.
  intros X T K W. rewrite (websocket_open_registered _ _ _ _ _ _ X T K).
  cbv zeta. set (w1 := set_connections _ w).
  pose proof (api_request_connections e GET (lit "user/profile")
                (profile_params user_id) w1) as A.
  destruct (api_request e GET _ _ w1) as [profile w2]; cbn [snd] in A.
  destruct (announce e user_joined user_id profile w2) as [w3|] eqn:N.
  - discriminate.
  - intros _.
    pose proof (websocket_finally_removes e user_id k w2 T K) as R.
    destruct (websocket_finally e user_id w2) as [y w3]. apply R.
    rewrite A. apply dict_wf_set, W.
Qed.

Lemma websocket_open_closed_unregisters_witness :
  dict_mem
    (active_connections (snd (websocket_open quirky (token (lit "7")) 4%nat
                                room))) (KInt 7) = false.
Proof.
  apply (websocket_open_closed_unregisters quirky (token (lit "7")) 4%nat room
           (PInt 7) (KInt 7) Propagated); reflexivity.
Defined.

(** X15. A websocket handler that reaches its receive loop, on a
    connection whose transport accepts every send, has its connection in
    the registry under its [user_id], whatever happened to the other
    connections during the two broadcasts. *)
Theorem websocket_open_registers
    (e : env) (init_data : pystr) (ws : conn) (w : world)
    (user_id u : pyval) (k : pykey) :
  extract_user_id e (PStr init_data) = Ok user_id ->
  truthy user_id = true ->
  to_key user_id = Some k ->
  dict_wf (active_connections w) = true ->
  (forall n p, ws_send_ok e n ws p = true) ->
  fst (websocket_open e init_data ws w) = Active u ->
  u = user_id
  /\ dict_find (active_connections (snd (websocket_open e init_data ws w))) k
     = Some ws.
Proof.
  intros X T K W R. rewrite (websocket_open_registered _ _ _ _ _ _ X T K).
  cbv zeta. set (w1 := set_connections _ w).
  pose proof (api_request_connections e GET (lit "user/profile")
                (profile_params user_id) w1) as A.
  destruct (api_request e GET _ _ w1) as [profile w2]; cbn [snd] in A.
  assert (W2 : dict_wf (active_connections w2) = true)
    by (rewrite A; apply dict_wf_set, W).
  assert (F2 : dict_find (active_connections w2) k = Some ws)
    by (rewrite A; apply dict_find_set_same).
  destruct (announce e user_joined user_id profile w2) as [w3|] eqn:N.
  - cbn [fst snd]. intros H; inversion H; subst. split; [reflexivity|].
    assert (W3 : dict_wf (active_connections w3) = true
                 /\ dict_find (active_connections w3) k = Some ws).
    { revert N. unfold announce.
      destruct (truthy profile); [|intros H'; inversion H'; subst; auto].
      destruct (py_get profile _ _); [|discriminate].
      intros H'; inversion H'; subst.
      split; [apply broadcast_wf, W2 | apply broadcast_keeps_conn; auto]. }
    destruct W3. apply broadcast_keeps_conn; auto.
  - destruct (websocket_finally e user_id w2); discriminate.
Qed.

Lemma websocket_open_registers_witness :
  dict_find
    (active_connections (snd (websocket_open sample (token (lit "7")) 4%nat
                                room))) (KInt 7) = Some 4%nat.
Proof.
  apply (websocket_open_registers sample (token (lit "7")) 4%nat room
           (PInt 7) (PInt 7) (KInt 7) eq_refl eq_refl eq_refl eq_refl).
  - intros n p; reflexivity.
  - reflexivity.
Defined.

(** ** Joining and leaving when every transport is in order *)

Lemma attempts_reliable (e : env) (p : pystr) (n : nat) (ts : dict) :
  reliable e -> attempts e p n ts = delivered p ts.
Proof.
  intros R; revert n; induction ts as [|[a x] ts IH]; simpl; intros n; auto.
  rewrite R, IH; reflexivity.
Qed.

Lemma failures_reliable (e : env) (p : pystr) (n : nat) (ts : dict) :
  reliable e -> failures e p n ts = [].
Proof.
  intros R; revert n; induction ts as [|[a x] ts IH]; simpl; intros n; auto.
  rewrite R; apply IH.
Qed.

Lemma broadcast_reliable (e : env) (message U : pyval) (w : world) :
  reliable e ->
  broadcast_message e message U w
  = {| active_connections := active_connections w;
       sends := sends w ++ delivered (json_dumps e message)
                             (targets U (active_connections w));
       closes := closes w;
       requests := requests w;
       dumps_calls := dumps_calls w
                      + length (targets U (active_connections w)) |}.
Proof.
  intros R. rewrite broadcast_message_spec.
  rewrite failures_reliable, attempts_reliable by exact R. reflexivity.
Qed.

Lemma others_absent (u : pyval) (k : pykey) (d : dict) :
  to_key u = Some k -> dict_mem d k = false -> others u d = d.
Proof.
  intros K. unfold others, py_eqb. rewrite K.
  induction d as [|[a x] d IH]; simpl; auto.
  rewrite orb_false_iff; intros [-> H]. cbn [negb]. rewrite IH; auto.
Qed.

(** X16. Joining, when every transport accepts every send and the store
    returns a profile, a non-empty object.  For a truthy, hashable
    [user_id] the handler reaches its receive loop having put its
    connection in the registry under [user_id], asked the store once, sent
    [user_joined], with the nickname of the profile, to every item of the
    registry but the one of [user_id], and then sent [online_count], with
    the size of the registry, to every item, the new connection included;
    it has closed nothing. *)
Theorem websocket_open_joins
    (e : env) (init_data : pystr) (ws : conn) (w : world)
    (user_id : pyval) (k : pykey) (p : list (pystr * pyval)) :
  reliable e ->
  extract_user_id e (PStr init_data) = Ok user_id ->
  truthy user_id = true ->
  to_key user_id = Some k ->
  YANDEX_CLOUD_API e <> [] ->
  http e (length (requests w)) (profile_call user_id) = Ok (PDict p) ->
  p <> [] ->
  websocket_open e init_data ws w
  = (Active user_id,
     {| active_connections := dict_set (active_connections w) k ws;
        sends :=
          sends w
          ++ delivered
               (json_dumps e
                  (user_joined user_id (obj_get p (lit "nickname") PNone)))
               (others user_id (dict_set (active_connections w) k ws))
          ++ delivered
               (json_dumps e
                  (online_count
                     (PInt (Z.of_nat
                              (length (dict_set (active_connections w) k
                                         ws))))))
               (dict_set (active_connections w) k ws);
        closes := closes w;
        requests := requests w ++ [profile_call user_id];
        dumps_calls :=
          dumps_calls w
          + length (others user_id (dict_set (active_connections w) k ws))
          + length (dict_set (active_connections w) k ws) |}).
Proof.
  intros R X T K C H N.
  rewrite (websocket_open_registered _ _ _ _ _ _ X T K). cbv zeta.
  rewrite api_request_configured by exact C.
  change (str_eqb GET GET) with true. cbv iota.
  fold (profile_call user_id).
  cbn [log_request set_connections requests active_connections sends closes
       dumps_calls]. rewrite H. cbn [answer_of].
  unfold announce. destruct p as [|kv p]; [congruence|].
  cbn [truthy py_get]. rewrite !broadcast_reliable by exact R.
  rewrite targets_unset, targets_truthy by (right; exact T).
  cbn [log_request set_connections active_connections sends closes requests
       dumps_calls online].
  fold (others user_id (dict_set (active_connections w) k ws)).
  rewrite <- app_assoc. reflexivity.
Qed.

Lemma websocket_open_joins_witness :
  map send_conn
    (new_sends room (snd (websocket_open calm (token (lit "7")) 4%nat room)))
  = [1%nat; 2%nat; 3%nat; 1%nat; 2%nat; 3%nat; 4%nat].
Proof.
  rewrite (websocket_open_joins calm (token (lit "7")) 4%nat room (PInt 7)
             (KInt 7) [(lit "nickname", PStr (lit "neo"))]
             (fun _ _ _ => eq_refl) eq_refl eq_refl eq_refl).
  - reflexivity.
  - discriminate.
  - reflexivity.
  - discriminate.
Defined.

(** X17. Leaving, when every transport accepts every send and the store
    returns a profile, a non-empty object.  For a registered [user_id] the
    [finally] block returns having removed the item of [user_id], asked the
    store once, sent [user_left], with the nickname of the profile, to every
    item that remains, and then [online_count], with the number of items
    that remain, to each of them again. *)
Theorem websocket_close_leaves
    (e : env) (w : world) (user_id : pyval) (k : pykey)
    (p : list (pystr * pyval)) :
  reliable e ->
  truthy user_id = true ->
  to_key user_id = Some k ->
  dict_wf (active_connections w) = true ->
  dict_mem (active_connections w) k = true ->
  YANDEX_CLOUD_API e <> [] ->
  http e (length (requests w)) (profile_call user_id) = Ok (PDict p) ->
  p <> [] ->
  websocket_close e user_id w
  = (Returned,
     {| active_connections := dict_pop (active_connections w) k;
        sends :=
          sends w
          ++ delivered
               (json_dumps e
                  (user_left user_id (obj_get p (lit "nickname") PNone)))
               (dict_pop (active_connections w) k)
          ++ delivered
               (json_dumps e
                  (online_count
                     (PInt (Z.of_nat
                              (length (dict_pop (active_connections w) k))))))
               (dict_pop (active_connections w) k);
        closes := closes w;
        requests := requests w ++ [profile_call user_id];
        dumps_calls :=
          dumps_calls w
          + length (dict_pop (active_connections w) k)
          + length (dict_pop (active_connections w) k) |}).
Proof.
  intros R T K W M C H N.
  unfold websocket_close, websocket_finally. rewrite T, K, M.
  rewrite api_request_configured by exact C.
  change (str_eqb GET GET) with true. cbv iota.
  fold (profile_call user_id).
  cbn [log_request set_connections requests active_connections sends closes
       dumps_calls]. rewrite H. cbn [answer_of].
  unfold announce. destruct p as [|kv p]; [congruence|].
  cbn [truthy py_get]. rewrite !broadcast_reliable by exact R.
  rewrite targets_unset, targets_truthy by (right; exact T).
  cbn [log_request set_connections active_connections sends closes requests
       dumps_calls online].
  fold (others user_id (dict_pop (active_connections w) k)).
  rewrite (others_absent user_id k) by (auto using dict_mem_pop_same).
  rewrite <- app_assoc. reflexivity.
Qed.

Lemma websocket_close_leaves_witness :
  map send_conn (new_sends room (snd (websocket_close calm (PInt 1) room)))
  = [2%nat; 3%nat; 2%nat; 3%nat]
  /\ active_connections (snd (websocket_close calm (PInt 1) room))
     = [(KInt 2, 2%nat); (KInt 3, 3%nat)].
Proof.
  rewrite (websocket_close_leaves calm room (PInt 1) (KInt 1)
             [(lit "nickname", PStr (lit "neo"))]
             (fun _ _ _ => eq_refl) eq_refl eq_refl eq_refl eq_refl).
  - split; reflexivity.
  - discriminate.
  - reflexivity.
  - discriminate.
Defined.

(** ** Invariants of the running application *)

Lemma lobby_reachable : reachable lobby.
Proof.
  exact (reach_open sample (token (lit "7")) 4%nat
           {| state := initial; sessions := [] |} (Active (PInt 7))
           (snd (websocket_open sample (token (lit "7")) 4%nat initial))
           reach_start eq_refl).
Qed.

Lemma dict_mem_inv (d : dict) (k : pykey) :
  dict_mem d k = true ->
  exists k' c, In (k', c) d /\ key_eqb k' k = true.
Proof.
  induction d as [|[a x] d IH]; simpl; [discriminate|].
  rewrite orb_true_iff; intros [E|H].
  - exists a, x; auto.
  - destruct (IH H) as (k' & c & I & E); exists k', c; auto.
Qed.

(** X18. No falsy identifier is ever registered: in every state the
    application can reach every key of the registry is truthy, so that
    nothing is registered under [0], [False], [None] or the empty string. *)
Theorem reachable_keys_are_truthy (s : system) :
  reachable s ->
  keys_truthy (active_connections (state s)) = true
  /\ forall k, key_truthy k = false ->
       dict_mem (active_connections (state s)) k = false.
Proof.
  intros R. apply reachable_inv in R. unfold registry_inv in R.
  apply andb_true_iff in R. destruct R as [_ T]. split; [exact T|].
  intros k F.
  destruct (dict_mem (active_connections (state s)) k) eqn:M; auto.
  apply dict_mem_inv in M. destruct M as (k' & c & I & E).
  unfold keys_truthy in T. rewrite forallb_forall in T.
  specialize (T _ I). cbn [fst] in T.
  rewrite (key_eqb_truthy _ _ E) in T. congruence.
Qed.

Lemma reachable_keys_are_truthy_witness :
  dict_mem (active_connections (state lobby)) (KInt 0) = false
  /\ dict_mem (active_connections (state lobby)) (KInt 7) = true.
Proof.
  destruct (reachable_keys_are_truthy lobby lobby_reachable) as [_ H].
  split; [apply H; reflexivity | reflexivity].
Defined.



















(** ** The text that is stored *)

Lemma lstrip_spaces (s : pystr) :
  forallb isspace s = true -> lstrip s = [].
Proof.
  induction s as [|c s IH]; simpl; auto.
  rewrite andb_true_iff; intros [-> H]; auto.
Qed.

Lemma lstrip_head (s : pystr) (c : char) (rest : pystr) :
  lstrip s = c :: rest -> isspace c = false.
Proof.
  induction s as [|a s IH]; simpl; [discriminate|].
  destruct (isspace a) eqn:E; auto.
  intros H; inversion H; subst; exact E.
Qed.

Lemma lstrip_suffix (s : pystr) : exists pre, s = pre ++ lstrip s.
Proof.
  induction s as [|a s [pre IH]]; simpl.
  - exists []; reflexivity.
  - destruct (isspace a).
    + exists (a :: pre); simpl; congruence.
    + exists []; reflexivity.
Qed.

Lemma lstrip_length (s : pystr) : (length (lstrip s) <= length s)%nat.
Proof.
  destruct (lstrip_suffix s) as [pre H]. rewrite H at 2.
  rewrite length_app; lia.
Qed.

Lemma strip_ends (raw : pystr) (c : char) (rest : pystr) :
  strip raw = c :: rest ->
  isspace c = false /\ isspace (last (c :: rest) c) = false.
Proof.
  unfold strip. intros H.
  destruct (lstrip (rev (lstrip raw))) as [|b r] eqn:L.
  { discriminate. }
  pose proof (lstrip_head _ _ _ L) as B. split.
  - destruct (lstrip_suffix (rev (lstrip raw))) as [pre P].
    rewrite L in P. apply (f_equal (@rev char)) in P.
    rewrite rev_involutive, rev_app_distr, H in P.
    destruct (lstrip raw) as [|a t] eqn:T; [discriminate|].
    simpl in P. inversion P; subst. eapply lstrip_head; eauto.
  - rewrite <- H. simpl rev. rewrite last_last. exact B.
Qed.

(** X21. A text made only of whitespace is refused: [send_message] answers
    400, the token having been accepted, and changes nothing.  A text that
    passes is handed to the store stripped: what is stored neither begins
    nor ends with a whitespace character and is no longer than what was
    sent. *)
Theorem send_message_strips_text
    (e : env) (d : list (pystr * pyval)) (w : world) (user_id : pyval)
    (raw : pystr) :
  extract_user_id e (obj_get d (lit "init_data") (PStr [])) = Ok user_id ->
  obj_get d (lit "text") (PStr []) = PStr raw ->
  (forallb isspace raw = true ->
   send_message e (PDict d) w
   = (Response 400 (error_body "Invalid message"), w))
  /\ (forall c rest,
        strip raw = c :: rest ->
        isspace c = false
        /\ isspace (last (c :: rest) c) = false
        /\ len (strip raw) <= len raw).
Proof.
  intros X T. split.
  - intros S. unfold send_message; cbn [py_get]. rewrite X, T.
    unfold strip. rewrite (lstrip_spaces _ S). reflexivity.
  - intros c rest H. destruct (strip_ends _ _ _ H) as [A B].
    repeat split; auto.
    unfold len, strip. rewrite length_rev.
    pose proof (lstrip_length (rev (lstrip raw))) as L1.
    pose proof (lstrip_length raw) as L2.
    rewrite length_rev in L1. lia.
Qed.

Lemma send_message_strips_text_witness :
  send_message sample
    (PDict [(lit "init_data", PStr (token (lit "42")));
            (lit "text", PStr [32; 9; 10; 160; 8195]%N)]) room
  = (Response 400 (error_body "Invalid message"), room).
Proof.
  destruct (send_message_strips_text sample
              [(lit "init_data", PStr (token (lit "42")));
               (lit "text", PStr [32; 9; 10; 160; 8195]%N)] room (PInt 42)
              [32; 9; 10; 160; 8195]%N eq_refl eq_refl) as [H _].
  apply H. reflexivity.
Defined.

(** ** Joining when the store gives no profile *)

(** X22. A store that gives no profile does not keep a user from joining:
    when it is not configured, the HTTP client raises or the answer is
    falsy, the handler still registers the connection and reaches its
    receive loop, and everything it sends is the [online_count] event, with
    the size of the registry, once to each item of the registry; no
    [user_joined] event is sent. *)
Theorem websocket_open_without_profile
    (e : env) (init_data : pystr) (ws : conn) (w : world)
    (user_id : pyval) (k : pykey) :
  extract_user_id e (PStr init_data) = Ok user_id ->
  truthy user_id = true ->
  to_key user_id = Some k ->
  YANDEX_CLOUD_API e = []
  \/ truthy (answer_of (http e (length (requests w)) (profile_call user_id)))
     = false ->
  fst (websocket_open e init_data ws w) = Active user_id
  /\ new_sends w (snd (websocket_open e init_data ws w))
     = attempts e
         (json_dumps e
            (online_count
               (PInt (Z.of_nat
                        (length (dict_set (active_connections w) k ws))))))
         (length (sends w)) (dict_set (active_connections w) k ws)
  /\ closes (snd (websocket_open e init_data ws w)) = closes w.
Proof.
  intros X T K F.
  rewrite (websocket_open_registered _ _ _ _ _ _ X T K). cbv zeta.
  assert (exists w2,
            api_request e GET (lit "user/profile") (profile_params user_id)
              (set_connections (dict_set (active_connections w) k ws) w)
            = (fst (api_request e GET (lit "user/profile")
                      (profile_params user_id)
                      (set_connections
                         (dict_set (active_connections w) k ws) w)), w2)
            /\ truthy (fst (api_request e GET (lit "user/profile")
                              (profile_params user_id)
                              (set_connections
                                 (dict_set (active_connections w) k ws) w)))
               = false
            /\ active_connections w2 = dict_set (active_connections w) k ws
            /\ sends w2 = sends w
            /\ closes w2 = closes w) as (w2 & A & P & D & S & C).
  { destruct (YANDEX_CLOUD_API e) as [|c url] eqn:Y.
    - rewrite api_request_unconfigured by exact Y.
      eexists; split; [reflexivity | repeat split].
    - rewrite api_request_configured by congruence.
      change (str_eqb GET GET) with true. cbv iota.
      fold (profile_call user_id).
      destruct F as [F|F]; [discriminate|].
      eexists; split; [reflexivity|]. cbn [fst]. split; [exact F|].
      repeat split. }
  rewrite A. unfold announce. rewrite P. cbn [fst snd].
  split; [reflexivity|]. split.
  - rewrite (new_sends_same_log w w2) by exact S.
    rewrite broadcast_new_sends, targets_unset. unfold online.
    rewrite D, S. reflexivity.
  - rewrite broadcast_closes; exact C.
Qed.

Lemma websocket_open_without_profile_witness :
  fst (websocket_open offline (token (lit "7")) 4%nat room) = Active (PInt 7)
  /\ map send_conn
       (new_sends room (snd (websocket_open offline (token (lit "7")) 4%nat
                               room)))
     = [1%nat; 2%nat; 3%nat; 4%nat].
Proof.
  destruct (websocket_open_without_profile offline (token (lit "7")) 4%nat
              room (PInt 7) (KInt 7) eq_refl eq_refl eq_refl
              (or_introl eq_refl)) as (A & B & _).
  split; [exact A | rewrite B; reflexivity].
Defined.
